(** * Financial statement analyzer: ratio computation, report selection and export

    A shallow embedding of [main.py]: the [FinancialAnalyzer] class, the two
    report generators, the download-link builder and the Streamlit [main]
    function, followed by the properties the specification states about them.

    Conventions.
    - A Python [str] is the list of its Unicode code points.
    - Code that can raise runs in a monad that carries the object a method
      works on and collects the events the code emits; a raised exception
      keeps the mutations and the events made so far, as in Python.
    - What the program takes from its libraries and cannot be written down
      here (arithmetic on statement cells, the [.2f] format, the Unicode
      upper-case table) is the interface [Runtime]; the market-data provider
      and the completion API are the record [World]. *)

From Stdlib Require Import NArith ZArith QArith Ascii String.
From stdpp Require Import gmap list strings.

Local Open Scope Z_scope.
Local Open Scope list_scope.

(** ** Strings *)

Abbreviation char := N (only parsing).
Abbreviation str := (list N) (only parsing).

(** An ASCII literal of the source. *)
Definition lit (s : string) : str := N_of_ascii <$> list_ascii_of_string s.

Definition LF : str := [10%N].
Definition DQUOTE : str := [34%N].

(** Twelve and eight spaces: the indentation carried by the two triple-quoted
    prompt templates. *)
Definition indent12 : str := replicate 12 32%N.
Definition indent8 : str := replicate 8 32%N.

(** [sep.join(parts)] *)
Fixpoint join (sep : str) (parts : list str) : str :=
  match parts with
  | [] => []
  | [p] => p
  | p :: rest => p ++ sep ++ join sep rest
  end.

(** Truth value of a [str] or of a [list]: non-empty. *)
Definition truthy {A} (l : list A) : bool :=
  match l with [] => false | _ :: _ => true end.

(** ** Exceptions and results *)

Inductive exn_class :=
| KeyError
| IndexError
| AttributeError
| ZeroDivisionError
| TypeError
| UnicodeEncodeError
| OtherException.

#[global] Instance exn_class_eq_dec : EqDecision exn_class.
Proof. solve_decision. Defined.

(** An exception object: its class and the text [str(e)] yields. Every class
    above derives from [Exception]. *)
Record exn := Exn { exn_class_of : exn_class; exn_str : str }.

Definition is_KeyError (e : exn) : bool :=
  match exn_class_of e with KeyError => true | _ => false end.

Inductive result (A : Type) :=
| Return (a : A)
| Raise (e : exn).
Arguments Return {A} a.
Arguments Raise {A} e.

Definition result_bind {A B} (r : result A) (k : A → result B) : result B :=
  match r with
  | Return a => k a
  | Raise e => Raise e
  end.

(** ** The monad: state, emitted events, exceptions *)

(** A computation on a state [S] that emits events of type [E]: its result,
    the state it leaves and the events it emitted, in order. *)
Definition Py (E S A : Type) : Type := S → result A * S * list E.

Definition py_ret {E S A} (a : A) : Py E S A := λ s, (Return a, s, []).

Definition py_bind {E S A B} (m : Py E S A) (k : A → Py E S B) : Py E S B :=
  λ s, match m s with
       | (Return a, s', out) =>
           match k a s' with
           | (r, s'', out') => (r, s'', out ++ out')
           end
       | (Raise e, s', out) => (Raise e, s', out)
       end.

#[global] Instance Py_ret E S : MRet (Py E S) := λ A, @py_ret E S A.
#[global] Instance Py_bind E S : MBind (Py E S) := λ A B k m, @py_bind E S A B m k.

(** A pure computation that may raise. *)
Definition lift {E S A} (r : result A) : Py E S A := λ s, (r, s, []).

Definition gets {E S A} (f : S → A) : Py E S A := λ s, (Return (f s), s, []).
Definition modify {E S} (f : S → S) : Py E S unit := λ s, (Return tt, f s, []).
Definition emit {E S} (ev : E) : Py E S unit := λ s, (Return tt, s, [ev]).

(** [try: body / except <classes> as e: handler e]. What [body] changed and
    emitted before it raised is kept. *)
Definition try_except {E S A} (body : Py E S A) (catches : exn → bool)
    (handler : exn → Py E S A) : Py E S A :=
  λ s, match body s with
       | (Return a, s', out) => (Return a, s', out)
       | (Raise e, s', out) =>
           if catches e then
             match handler e s' with
             | (r, s'', out') => (r, s'', out ++ out')
             end
           else (Raise e, s', out)
       end.

(** [except Exception] catches every exception of the model. *)
Definition Exception : exn → bool := λ _, true.

(** ** The library interface *)

Class Runtime := {
  (** the values held by the cells of a statement *)
  value : Type;
  (** [a / b] on two cells; it returns the quotient or raises. On a zero
      denominator Python's scalars raise [ZeroDivisionError], while the
      floats of a numeric statement return an infinity or a NaN. *)
  truediv : value → value → result value;
  (** whether a cell is a numeric zero *)
  is_zero : value → bool;
  (** [f"{v:.2f}"], on the quotients the calculator stores *)
  format_2f : value → str;
  (** the full upper-case mapping of one code point *)
  toupper_full : char → str;
}.

(** [s.upper()] maps every code point through the full upper-case mapping. *)
Definition upper `{Runtime} (s : str) : str := s ≫= toupper_full.

(** ** Statements *)

(** A statement table: line-item label to the row of its values, most recent
    period first. Labels are unique. *)
Abbreviation DataFrame := (gmap (list N) (list value)) (only parsing).

Section Frames.
Context `{RT : Runtime}.

(** [frame.loc[label]] on an attribute that may still be [None]. *)
Definition loc (frame : option DataFrame) (label : str) : result (list value) :=
  match frame with
  | None => Raise (Exn AttributeError (lit "'NoneType' object has no attribute 'loc'"))
  | Some df =>
      match df !! label with
      | Some row => Return row
      | None => Raise (Exn KeyError (lit "'" ++ label ++ lit "'"))
      end
  end.

(** [row.iloc[0]] *)
Definition iloc0 (row : list value) : result value :=
  match row with
  | v :: _ => Return v
  | [] => Raise (Exn IndexError (lit "single positional indexer is out-of-bounds"))
  end.

(** The value of a line item in the most recent period, when there is one. *)
Definition first_period (df : DataFrame) (label : str) : option value :=
  df !! label ≫= head.
End Frames.

(** ** The ordered dictionary of ratios *)

Section Dict.
Context {V : Type}.

(** [d[k] = v]: replace in place, or append. *)
Fixpoint dict_set (k : str) (v : V) (d : list (str * V)) : list (str * V) :=
  match d with
  | [] => [(k, v)]
  | (k', v') :: rest =>
      if decide (k' = k) then (k, v) :: rest else (k', v') :: dict_set k v rest
  end.

Fixpoint dict_get (k : str) (d : list (str * V)) : option V :=
  match d with
  | [] => None
  | (k', v') :: rest => if decide (k' = k) then Some v' else dict_get k rest
  end.
End Dict.

(** ** Requests to the completion API *)

Record request := {
  model : str;
  (** role and content of each message, in order *)
  messages : list (str * str);
  max_tokens : Z;
  (** the decimal literal of the source, as a rational *)
  temperature : Q;
}.

(** The response, as far as the program reads it: for every choice, the
    content of its message, which the API may leave null. *)
Abbreviation response := (list (option (list N))) (only parsing).

(** ** The analyzer object, the events and the outside world *)

Section Program.
Context `{RT : Runtime}.

Record FinancialAnalyzer := {
  ticker : str;
  (** the provider handle [yf.Ticker(ticker)], identified by its symbol *)
  stock : str;
  income_stmt : option DataFrame;
  balance_sheet : option DataFrame;
  cash_flow : option DataFrame;
  financial_ratios : list (str * value);
}.

(** What [st.write] is given. *)
Inductive written :=
| WText (s : str)
| WFrame (df : option DataFrame)
| WRatioTable (rows : list (str * value)).

(** Everything the program does that can be observed from outside, in the
    order it happens. [Enter] marks the entry into one of the two report
    generators; it has no counterpart on the screen. *)
Inductive event :=
| StTitle (s : str)
| StSidebarHeader (s : str)
| StSidebarTextInput (label default : str)
| StSidebarWrite (s : str)
| StSidebarCheckbox (label : str)
| StSpinner (s : str)
| StSuccess (s : str)
| StError (s : str)
| StWarning (s : str)
| StInfo (s : str)
| StSubheader (s : str)
| StWrite (w : written)
| StMarkdown (s : str)
| YfTicker (symbol : str)
| YfFinancials (symbol : str)
| YfBalanceSheet (symbol : str)
| YfCashflow (symbol : str)
| ChatCompletionsCreate (r : request)
| Enter (function_name : str).

(** The market-data provider and the completion API: what each call
    answers. *)
Record World := {
  (** [yf.Ticker(symbol)]: the handle is the symbol it was made for *)
  yf_ticker : str → result unit;
  yf_financials : str → result DataFrame;
  yf_balance_sheet : str → result DataFrame;
  yf_cashflow : str → result DataFrame;
  chat_completions_create : request → result response;
}.

(** Assignments to the attributes of an analyzer. *)
Definition set_income_stmt (df : DataFrame) (a : FinancialAnalyzer) : FinancialAnalyzer :=
  {| ticker := ticker a; stock := stock a;
     income_stmt := Some df; balance_sheet := balance_sheet a;
     cash_flow := cash_flow a; financial_ratios := financial_ratios a |}.

Definition set_balance_sheet (df : DataFrame) (a : FinancialAnalyzer) : FinancialAnalyzer :=
  {| ticker := ticker a; stock := stock a;
     income_stmt := income_stmt a; balance_sheet := Some df;
     cash_flow := cash_flow a; financial_ratios := financial_ratios a |}.

Definition set_cash_flow (df : DataFrame) (a : FinancialAnalyzer) : FinancialAnalyzer :=
  {| ticker := ticker a; stock := stock a;
     income_stmt := income_stmt a; balance_sheet := balance_sheet a;
     cash_flow := Some df; financial_ratios := financial_ratios a |}.

Definition set_financial_ratios (ratios : list (str * value)) (a : FinancialAnalyzer)
    : FinancialAnalyzer :=
  {| ticker := ticker a; stock := stock a;
     income_stmt := income_stmt a; balance_sheet := balance_sheet a;
     cash_flow := cash_flow a; financial_ratios := ratios |}.

(** The attributes [__init__] assigns. *)
Definition blank (ticker : str) : FinancialAnalyzer :=
  {| ticker := ticker; stock := ticker;
     income_stmt := None; balance_sheet := None; cash_flow := None;
     financial_ratios := [] |}.
End Program.

(** A method runs on its object; module-level code has no state. *)
Abbreviation method := (Py event FinancialAnalyzer) (only parsing).
Abbreviation script := (Py event unit) (only parsing).

Section Methods.
Context `{RT : Runtime}.

(** [obj.method()] from module level: the caller gets the result and the
    object as the method left it. *)
Definition call {A} (obj : FinancialAnalyzer) (m : method A)
    : script (A * FinancialAnalyzer) :=
  λ _, match m obj with
       | (Return a, obj', out) => (Return (a, obj'), tt, out)
       | (Raise e, _, out) => (Raise e, tt, out)
       end.

Context (W : World).

(** *** [FinancialAnalyzer.__init__]

    [yf.Ticker(ticker)] can raise, and [main] calls the constructor outside
    every [try]: an exception of it leaves [main]. *)
Definition init (ticker : str) : script FinancialAnalyzer :=
  emit (YfTicker ticker);;
  lift (yf_ticker W ticker);;
  mret (blank ticker).

(** *** [FinancialAnalyzer.fetch_financial_statements] *)
Definition fetch_financial_statements : method bool :=
  try_except
    (symbol ← gets stock;
     emit (YfFinancials symbol);;
     financials ← lift (yf_financials W symbol);
     modify (set_income_stmt financials);;
     emit (YfBalanceSheet symbol);;
     sheet ← lift (yf_balance_sheet W symbol);
     modify (set_balance_sheet sheet);;
     emit (YfCashflow symbol);;
     flow ← lift (yf_cashflow W symbol);
     modify (set_cash_flow flow);;
     mret true)
    Exception
    (λ e, emit (StError (lit "Error fetching financial statements: " ++ exn_str e));;
          mret false).

(** *** [FinancialAnalyzer.calculate_financial_ratios] *)

(** [self.<frame>.loc[label].iloc[0]] *)
Definition cell (frame : FinancialAnalyzer → option DataFrame) (label : str)
    : method value :=
  table ← gets frame;
  lift (result_bind (loc table label) iloc0).

(** [self.financial_ratios[name] = q] *)
Definition set_ratio (name : str) (q : value) : method unit :=
  modify (λ a, set_financial_ratios (dict_set name q (financial_ratios a)) a).

(** Lines 45 to 69: the three guarded computations; the result is the local
    list [missing_data] as it stands at line 71. *)
Definition ratio_blocks : method (list str) :=
  let missing_data := [] in
  missing_data ←
    try_except
      (gross_profit ← cell income_stmt (lit "Gross Profit");
       total_revenue ← cell income_stmt (lit "Total Revenue");
       q ← lift (truediv gross_profit total_revenue);
       set_ratio (lit "Gross Margin") q;;
       mret missing_data)
      is_KeyError
      (λ _, mret (missing_data ++ [lit "Gross Margin"]));
  missing_data ←
    try_except
      (total_current_assets ← cell balance_sheet (lit "Total Current Assets");
       total_current_liabilities ← cell balance_sheet (lit "Total Current Liabilities");
       q ← lift (truediv total_current_assets total_current_liabilities);
       set_ratio (lit "Current Ratio") q;;
       mret missing_data)
      is_KeyError
      (λ _, mret (missing_data ++ [lit "Current Ratio"]));
  missing_data ←
    try_except
      (total_liabilities ← cell balance_sheet (lit "Total Liab");
       shareholder_equity ← cell balance_sheet (lit "Total Stockholder Equity");
       q ← lift (truediv total_liabilities shareholder_equity);
       set_ratio (lit "Debt-to-Equity Ratio") q;;
       mret missing_data)
      is_KeyError
      (λ _, mret (missing_data ++ [lit "Debt-to-Equity Ratio"]));
  mret missing_data.

Definition calculate_financial_ratios : method unit :=
  try_except
    (missing_data ← ratio_blocks;
     if truthy missing_data then
       emit (StWarning
         (lit "Unable to calculate the following ratios due to missing data: "
          ++ join (lit ", ") missing_data))
     else mret tt)
    Exception
    (λ e, emit (StError (lit "Error calculating financial ratios: " ++ exn_str e))).

End Methods.

(** ** Library functions on strings and bytes *)

(** *** [str.strip()] *)

(** [c.isspace()], the characters [strip] removes when it is given no
    argument. *)
Definition isspace (c : char) : bool :=
  ((9 <=? c) && (c <=? 13) || (28 <=? c) && (c <=? 32)
   || (c =? 133) || (c =? 160) || (c =? 5760)
   || (8192 <=? c) && (c <=? 8202)
   || (c =? 8232) || (c =? 8233) || (c =? 8239) || (c =? 8287)
   || (c =? 12288))%N.

Fixpoint lstrip (s : str) : str :=
  match s with
  | c :: rest => if isspace c then lstrip rest else s
  | [] => []
  end.

Definition rstrip (s : str) : str := reverse (lstrip (reverse s)).

Definition strip (s : str) : str := rstrip (lstrip s).

(** *** [str.encode()], UTF-8 *)

Module Utf8.

Definition is_surrogate (c : char) : bool := ((55296 <=? c) && (c <=? 57343))%N.

(** The bytes of one code point; a surrogate has none. *)
Definition encode_char (c : char) : option (list N) :=
  (if c <? 128 then Some [c]
   else if c <? 2048 then Some [192 + c / 64; 128 + c mod 64]
   else if c <? 65536 then
     if is_surrogate c then None
     else Some [224 + c / 4096; 128 + (c / 64) mod 64; 128 + c mod 64]
   else if c <? 1114112 then
     Some [240 + c / 262144; 128 + (c / 4096) mod 64;
           128 + (c / 64) mod 64; 128 + c mod 64]
   else None)%N.

Fixpoint encode_chars (s : str) : option (list N) :=
  match s with
  | [] => Some []
  | c :: rest =>
      match encode_char c, encode_chars rest with
      | Some bs, Some more => Some (bs ++ more)
      | _, _ => None
      end
  end.

(** [text.encode()]; the message is the reason part of Python's. *)
Definition encode (s : str) : result (list N) :=
  match encode_chars s with
  | Some bs => Return bs
  | None => Raise (Exn UnicodeEncodeError (lit "surrogates not allowed"))
  end.

(** A code point that UTF-8 can carry. *)
Definition scalar (c : char) : Prop :=
  (c < 1114112)%N ∧ is_surrogate c = false.

End Utf8.

(** *** [base64.b64encode] and its inverse *)

Module Base64.

Definition alphabet : str :=
  lit "ABCDEFGHIJKLMNOPQRSTUVWXYZabcdefghijklmnopqrstuvwxyz0123456789+/".

Definition pad : char := 61%N.

(** The character of a six-bit group. *)
Definition digit (i : N) : char := nth (N.to_nat i) alphabet pad.

(** [b64encode(bs)], already read as text ([.decode()]): three bytes make
    four characters, a last group of one or two bytes is padded with [=]. *)
Fixpoint b64encode (bs : list N) : str :=
  match bs with
  | [] => []
  | [a] => [digit (a / 4); digit (a mod 4 * 16); pad; pad]%N
  | [a; b] =>
      [digit (a / 4); digit (a mod 4 * 16 + b / 16); digit (b mod 16 * 4); pad]%N
  | a :: b :: c :: rest =>
      [digit (a / 4); digit (a mod 4 * 16 + b / 16);
       digit (b mod 16 * 4 + c / 64); digit (c mod 64)]%N ++ b64encode rest
  end.




End Base64.

(** ** The download link *)

Definition link_head : str := lit "<a href=" ++ DQUOTE ++ lit "data:file/txt;base64,".
Definition link_tail : str := lit ">Download Report</a>".

(** [get_text_download_link(text, filename)] *)
Definition get_text_download_link (text filename : str) : result str :=
  result_bind (Utf8.encode text) (λ bs,
    let b64 := Base64.b64encode bs in
    let href := link_head ++ b64 ++ DQUOTE ++ lit " download=" ++ DQUOTE
                ++ filename ++ DQUOTE ++ link_tail in
    Return href).



(** [needle in hay] *)
Definition contains (needle hay : str) : Prop :=
  ∃ before after, hay = before ++ needle ++ after.

(** ** Report generation and the page *)

Section Reports.
Context `{RT : Runtime} (W : World).

(** [client.chat.completions.create(...)] *)
Definition create {S} (r : request) : Py event S response :=
  emit (ChatCompletionsCreate r);;
  lift (chat_completions_create W r).

(** [response.choices[0].message.content.strip()] *)
Definition first_content_stripped (choices : response) : result str :=
  match choices with
  | [] => Raise (Exn IndexError (lit "list index out of range"))
  | None :: _ =>
      Raise (Exn AttributeError (lit "'NoneType' object has no attribute 'strip'"))
  | Some content :: _ => Return (strip content)
  end.

Definition system_message : str * str :=
  (lit "system", lit "You are a financial analyst.").

(** The loop of lines 84 to 86. *)
Definition ratios_text_of (ratios : list (str * value)) : str :=
  foldl (λ ratios_text entry,
           ratios_text ++ (entry.1 ++ lit ": " ++ format_2f entry.2 ++ LF))
        [] ratios.

Definition ratio_prompt (ticker ratios_text : str) : str :=
  LF ++ indent12 ++ lit "Provide a detailed analysis of " ++ ticker
  ++ lit "'s financial health based on the following financial ratios:" ++ LF
  ++ LF
  ++ indent12 ++ ratios_text ++ LF
  ++ LF
  ++ indent12
  ++ lit "Discuss what each available ratio means for the company's financial stability and performance."
  ++ LF
  ++ indent12.

Definition fallback_prompt (ticker : str) : str :=
  LF ++ indent8 ++ lit "Provide a detailed analysis of " ++ ticker
  ++ lit "'s financial health based on the available financial statements." ++ LF
  ++ LF
  ++ indent8
  ++ lit "Discuss the company's performance, financial stability, and any notable trends or observations."
  ++ LF
  ++ indent8.

(** The arguments of the two calls to the completion API (lines 96 to 104 and
    126 to 134). *)
Definition ratio_request (ticker : str) (ratios : list (str * value)) : request :=
  {| model := lit "gpt-3.5-turbo";
     messages := [system_message;
                  (lit "user", ratio_prompt ticker (ratios_text_of ratios))];
     max_tokens := 500;
     temperature := 7 # 10 |}.

Definition fallback_request (ticker : str) : request :=
  {| model := lit "gpt-4o";
     messages := [system_message; (lit "user", fallback_prompt ticker)];
     max_tokens := 2048;
     temperature := 1 # 1 |}.

(** *** [FinancialAnalyzer.generate_financial_report] *)
Definition generate_financial_report : method (option str) :=
  emit (Enter (lit "generate_financial_report"));;
  try_except
    (a ← gets id;
     if negb (truthy (financial_ratios a)) then
       emit (StError (lit "No financial ratios available to generate the report."));;
       mret None
     else
       response ← create (ratio_request (ticker a) (financial_ratios a));
       report ← lift (first_content_stripped response);
       mret (Some report))
    Exception
    (λ e, emit (StError (lit "Error generating financial report: " ++ exn_str e));;
          mret None).

(** *** [generate_report_with_available_data] *)
Definition generate_report_with_available_data (analyzer : FinancialAnalyzer)
    : script (option str) :=
  emit (Enter (lit "generate_report_with_available_data"));;
  try_except
    (response ← create (fallback_request (ticker analyzer));
     report ← lift (first_content_stripped response);
     mret (Some report))
    Exception
    (λ e, emit (StError (lit "Error generating financial report: " ++ exn_str e));;
          mret None).

(** What either generator makes of one request: the report it returns and
    the events of the call, read off the answer of the completion API. *)
Definition completion (r : request) : option str * list event :=
  match result_bind (chat_completions_create W r) first_content_stripped with
  | Return report => (Some report, [ChatCompletionsCreate r])
  | Raise e =>
      (None, [ChatCompletionsCreate r;
              StError (lit "Error generating financial report: " ++ exn_str e)])
  end.

(** *** [main]

    [text_input] is what the ticker field holds and [checkbox] whether the
    raw-statements box is ticked. *)
Definition main (text_input : str) (checkbox : bool) : script unit :=
  emit (StTitle (lit "AI-Powered Financial Statement Analyzer and Report Generator"));;
  emit (StSidebarHeader (lit "User Input"));;
  emit (StSidebarTextInput (lit "Stock Ticker Symbol") (lit "AAPL"));;
  let ticker := upper text_input in
  if truthy ticker then
    emit (StSidebarWrite (lit "Analyzing: " ++ ticker));;
    emit (StSpinner (lit "Fetching data..."));;
    analyzer ← init W ticker;
    '(fetched, analyzer) ← call analyzer (fetch_financial_statements W);
    if fetched : bool then
      '(_, analyzer) ← call analyzer calculate_financial_ratios;
      if truthy (financial_ratios analyzer) then
        emit (StSuccess (lit "Data fetched and ratios calculated."));;
        emit (StSidebarCheckbox (lit "Show Raw Financial Statements"));;
        (if checkbox then
           emit (StSubheader (lit "Income Statement"));;
           emit (StWrite (WFrame (income_stmt analyzer)));;
           emit (StSubheader (lit "Balance Sheet"));;
           emit (StWrite (WFrame (balance_sheet analyzer)));;
           emit (StSubheader (lit "Cash Flow Statement"));;
           emit (StWrite (WFrame (cash_flow analyzer)))
         else mret tt);;
        emit (StSubheader (lit "Key Financial Ratios"));;
        emit (StWrite (WRatioTable (financial_ratios analyzer)));;
        emit (StSpinner (lit "Generating AI report..."));;
        '(report, analyzer) ← call analyzer generate_financial_report;
        match report with
        | Some ((_ :: _) as report) =>
            emit (StSubheader (lit "AI-Generated Financial Report"));;
            emit (StWrite (WText report));;
            href ← lift (get_text_download_link report
                           (ticker ++ lit "_financial_report.txt"));
            emit (StMarkdown href)
        | _ => emit (StError (lit "Failed to generate financial report."))
        end
      else
        emit (StError (lit "Financial ratios could not be calculated."));;
        emit (StInfo (lit "Generating report based on available financial data."));;
        report ← generate_report_with_available_data analyzer;
        match report with
        | Some ((_ :: _) as report) =>
            emit (StSubheader (lit "AI-Generated Financial Report"));;
            emit (StWrite (WText report))
        | _ => emit (StError (lit "Unable to generate report due to insufficient data."))
        end
    else
      emit (StError (lit "Failed to fetch data. Please check the ticker symbol and try again."))
  else mret tt.

End Reports.

(** ** Reading a trace *)

Section Traces.
Context `{RT : Runtime}.

(** The ticker symbol an event of the market-data provider carries. *)
Definition symbol_of (ev : event) : option str :=
  match ev with
  | YfTicker symbol | YfFinancials symbol | YfBalanceSheet symbol
  | YfCashflow symbol => Some symbol
  | _ => None
  end.

Definition is_error (ev : event) : bool :=
  match ev with StError _ => true | _ => false end.

Definition enters (function_name : str) (ev : event) : bool :=
  match ev with
  | Enter f => bool_decide (f = function_name)
  | _ => false
  end.

(** How often a trace enters a function. *)
Definition entries (function_name : str) (trace : list event) : nat :=
  length (filter (λ ev, enters function_name ev = true) trace).

(** The requests a trace sends to the completion API. *)
Definition requests (trace : list event) : list request :=
  trace ≫= λ ev, match ev with ChatCompletionsCreate r => [r] | _ => [] end.

(** The analyzer [main] holds once the statements of [symbol] are fetched and
    the ratios calculated; none when the handle cannot be made or the fetch
    fails. *)
Definition analyzed (W : World) (symbol : str) : option FinancialAnalyzer :=
  match init W symbol tt with
  | (Return analyzer, _, _) =>
      match fetch_financial_statements W analyzer with
      | (Return true, analyzer, _) =>
          Some (calculate_financial_ratios analyzer).1.2
      | _ => None
      end
  | _ => None
  end.


(** The names of the two generators, as [Enter] records them. *)
Definition ratio_grounded : str := lit "generate_financial_report".
Definition fallback : str := lit "generate_report_with_available_data".

(** What an event of a run of [main] on the ticker [symbol] has to do with
    that ticker, with the completion API and with the other events of the
    [trace]. *)
Definition page_event (W : World) (symbol : str) (trace : list event) (ev : event)
    : Prop :=
  match ev with
  | YfTicker s | YfFinancials s | YfBalanceSheet s | YfCashflow s => s = symbol
  | StSidebarWrite m => m = lit "Analyzing: " ++ symbol
  | ChatCompletionsCreate r =>
      r = fallback_request symbol ∨ ∃ ratios, r = ratio_request symbol ratios
  | StWrite (WText report) =>
      ∃ r content more,
        ChatCompletionsCreate r ∈ trace
        ∧ chat_completions_create W r = Return (Some content :: more)
        ∧ report = strip content
  | StMarkdown href =>
      ∃ report,
        StWrite (WText report) ∈ trace
        ∧ get_text_download_link report (symbol ++ lit "_financial_report.txt")
          = Return href
  | _ => True
  end.

(** The events before the analysis, those that open it, those between the
    calculator and the ratio-grounded generator, and those around a report. *)
Definition page_head : list event :=
  [StTitle (lit "AI-Powered Financial Statement Analyzer and Report Generator");
   StSidebarHeader (lit "User Input");
   StSidebarTextInput (lit "Stock Ticker Symbol") (lit "AAPL")].

Definition analysis_head (symbol : str) : list event :=
  [StSidebarWrite (lit "Analyzing: " ++ symbol);
   StSpinner (lit "Fetching data...");
   YfTicker symbol].

Definition ratios_shown (a : FinancialAnalyzer) (checkbox : bool) : list event :=
  [StSuccess (lit "Data fetched and ratios calculated.");
   StSidebarCheckbox (lit "Show Raw Financial Statements")]
  ++ (if checkbox then
        [StSubheader (lit "Income Statement"); StWrite (WFrame (income_stmt a));
         StSubheader (lit "Balance Sheet"); StWrite (WFrame (balance_sheet a));
         StSubheader (lit "Cash Flow Statement"); StWrite (WFrame (cash_flow a))]
      else [])
  ++ [StSubheader (lit "Key Financial Ratios");
      StWrite (WRatioTable (financial_ratios a));
      StSpinner (lit "Generating AI report...")].

Definition report_shown (report : str) : list event :=
  [StSubheader (lit "AI-Generated Financial Report"); StWrite (WText report)].

Definition fallback_announced : list event :=
  [StError (lit "Financial ratios could not be calculated.");
   StInfo (lit "Generating report based on available financial data.")].

(** What [main] shows once a generator has returned. *)
Definition ratio_outcome (symbol : str) (report : option str) : list event :=
  match report with
  | Some ((_ :: _) as report) =>
      report_shown report
      ++ match get_text_download_link report (symbol ++ lit "_financial_report.txt") with
         | Return href => [StMarkdown href]
         | Raise _ => []
         end
  | _ => [StError (lit "Failed to generate financial report.")]
  end.

Definition fallback_outcome (report : option str) : list event :=
  match report with
  | Some ((_ :: _) as report) => report_shown report
  | _ => [StError (lit "Unable to generate report due to insufficient data.")]
  end.

(** The events of the report step, for the analyzer the calculator left. *)
Definition report_trace (W : World) (a : FinancialAnalyzer) (checkbox : bool)
    : list event :=
  if truthy (financial_ratios a) then
    ratios_shown a checkbox
    ++ Enter ratio_grounded
       :: (completion W (ratio_request (ticker a) (financial_ratios a))).2
    ++ ratio_outcome (ticker a)
         (completion W (ratio_request (ticker a) (financial_ratios a))).1
  else
    fallback_announced
    ++ Enter fallback :: (completion W (fallback_request (ticker a))).2
    ++ fallback_outcome (completion W (fallback_request (ticker a))).1.

(** The events of a whole run of [main], in closed form. *)
Definition page_trace (W : World) (text_input : str) (checkbox : bool) : list event :=
  let symbol := upper text_input in
  if truthy symbol then
    match yf_ticker W symbol with
    | Raise _ => page_head ++ analysis_head symbol
    | Return _ =>
        let fetched := fetch_financial_statements W (blank symbol) in
        page_head ++ analysis_head symbol ++ fetched.2
        ++ match fetched.1.1 with
           | Return true =>
               let calculated := calculate_financial_ratios fetched.1.2 in
               calculated.2 ++ report_trace W calculated.1.2 checkbox
           | Return false =>
               [StError (lit "Failed to fetch data. Please check the ticker symbol and try again.")]
           | Raise _ => []
           end
    end
  else page_head.

(** An event that neither enters a generator nor calls the completion API. *)
Definition silent (ev : event) : Prop :=
  match ev with
  | Enter _ | ChatCompletionsCreate _ => False
  | _ => True
  end.

(** The shapes of the events each procedure emits. *)
Definition fetch_event (symbol : str) (ev : event) : Prop :=
  match ev with
  | YfFinancials s | YfBalanceSheet s | YfCashflow s => s = symbol
  | StError _ => True
  | _ => False
  end.

Definition calculate_event (ev : event) : Prop :=
  match ev with
  | StWarning _ | StError _ => True
  | _ => False
  end.

Definition completion_event (r : request) (ev : event) : Prop :=
  match ev with
  | ChatCompletionsCreate r' => r' = r
  | StError _ => True
  | _ => False
  end.
End Traces.

(** ** The three ratios, as the specification names them *)

Inductive ratio := GrossMargin | CurrentRatio | DebtToEquity.

#[global] Instance ratio_eq_dec : EqDecision ratio.
Proof. solve_decision. Defined.

Definition ratio_name (r : ratio) : str :=
  match r with
  | GrossMargin => lit "Gross Margin"
  | CurrentRatio => lit "Current Ratio"
  | DebtToEquity => lit "Debt-to-Equity Ratio"
  end.

Definition numerator (r : ratio) : str :=
  match r with
  | GrossMargin => lit "Gross Profit"
  | CurrentRatio => lit "Total Current Assets"
  | DebtToEquity => lit "Total Liab"
  end.

Definition denominator (r : ratio) : str :=
  match r with
  | GrossMargin => lit "Total Revenue"
  | CurrentRatio => lit "Total Current Liabilities"
  | DebtToEquity => lit "Total Stockholder Equity"
  end.

(** The ratios computed before [r], in the order of the source. *)
Definition earlier (r : ratio) : list ratio :=
  match r with
  | GrossMargin => []
  | CurrentRatio => [GrossMargin]
  | DebtToEquity => [GrossMargin; CurrentRatio]
  end.

Section Requirements.
Context `{RT : Runtime}.

(** The statement a ratio reads. *)
Definition statement_of (r : ratio) (a : FinancialAnalyzer) : option DataFrame :=
  match r with
  | GrossMargin => income_stmt a
  | CurrentRatio | DebtToEquity => balance_sheet a
  end.

(** Both line items of [r] have a value in the most recent period. *)
Definition rows_present (r : ratio) (a : FinancialAnalyzer) (x y : value) : Prop :=
  ∃ df, statement_of r a = Some df
        ∧ first_period df (numerator r) = Some x
        ∧ first_period df (denominator r) = Some y.

(** A line item of [r] is not in its statement. *)
Definition row_missing (r : ratio) (a : FinancialAnalyzer) : Prop :=
  ∃ df, statement_of r a = Some df
        ∧ (df !! numerator r = None ∨ df !! denominator r = None).

(** Both line items are there and the denominator is not zero. *)
Definition computable (r : ratio) (a : FinancialAnalyzer) : Prop :=
  ∃ x y, rows_present r a x y ∧ is_zero y = false.

Definition has_entry (r : ratio) (a : FinancialAnalyzer) : Prop :=
  is_Some (dict_get (ratio_name r) (financial_ratios a)).

(** What the guarded statements of [r] evaluate before the store: the two
    look-ups and the division. *)
Definition quotient (r : ratio) (a : FinancialAnalyzer) : result value :=
  result_bind (result_bind (loc (statement_of r a) (numerator r)) iloc0) (λ x,
  result_bind (result_bind (loc (statement_of r a) (denominator r)) iloc0) (λ y,
  truediv x y)).

(** The guarded statements of [r] raise something the [except KeyError]
    clause does not catch. *)
Definition abandons (r : ratio) (a : FinancialAnalyzer) : bool :=
  match quotient r a with
  | Return _ => false
  | Raise e => negb (is_KeyError e)
  end.

(** The analyzer after [self.financial_ratios[name of r] = q]. *)
Definition store (r : ratio) (q : value) (a : FinancialAnalyzer) : FinancialAnalyzer :=
  set_financial_ratios (dict_set (ratio_name r) q (financial_ratios a)) a.

(** One guarded computation, read off its [quotient]: store the ratio, or
    note its name as missing, or let the exception through. *)
Definition block_step (r : ratio) (missing_data : list str)
    : method (list str) :=
  λ a, match quotient r a with
       | Return q => (Return missing_data, store r q a, [])
       | Raise e =>
           if is_KeyError e then (Return (missing_data ++ [ratio_name r]), a, [])
           else (Raise e, a, [])
       end.

(** The guarded statements of [r] raise [KeyError]. *)
Definition lacks_row (r : ratio) (a : FinancialAnalyzer) : bool :=
  match quotient r a with
  | Return _ => false
  | Raise e => is_KeyError e
  end.

(** No ratio computed before [r] lets an exception through, so that the
    statements of [r] are reached. *)
Definition reached (r : ratio) (a : FinancialAnalyzer) : bool :=
  forallb (λ r', negb (abandons r' a)) (earlier r).

(** The value the run stores for [r], if it stores one. *)
Definition recorded (r : ratio) (a : FinancialAnalyzer) : option value :=
  if reached r a then
    match quotient r a with
    | Return q => Some q
    | Raise _ => None
    end
  else None.

Definition all_ratios : list ratio := [GrossMargin; CurrentRatio; DebtToEquity].

(** The three things the guarded statements of one ratio can do. *)
Inductive block_outcome (r : ratio) (a : FinancialAnalyzer) : Prop :=
| Computes q :
    quotient r a = Return q → abandons r a = false → lacks_row r a = false →
    block_outcome r a
| Misses e :
    quotient r a = Raise e → is_KeyError e = true → abandons r a = false →
    lacks_row r a = true → block_outcome r a
| Abandons e :
    quotient r a = Raise e → is_KeyError e = false → abandons r a = true →
    lacks_row r a = false → block_outcome r a.

(** Two laws of division. A value whenever the denominator is not zero,
    as floats give and Python's numbers within the range of a float.
    [ZeroDivisionError] when it is zero, as Python's scalars give and
    floats do not. *)
Definition division_returns_on_nonzero : Prop :=
  ∀ x y, is_zero y = false → ∃ q, truediv x y = Return q.

Definition division_raises_on_zero : Prop :=
  ∀ x y, is_zero y = true →
         ∃ e, truediv x y = Raise e ∧ exn_class_of e = ZeroDivisionError.

(** How often a name occurs in a list of names. *)
Definition occurrences (name : str) (names : list str) : nat :=
  length (filter (λ n, n = name) names).
End Requirements.

(** ** An instance: exact rational cells with Python's scalar division *)

Module Exact.

Definition divide (a b : Q) : result Q :=
  if Qeq_bool b 0 then Raise (Exn ZeroDivisionError (lit "division by zero"))
  else Return (Qred (a / b)).

Definition zero (q : Q) : bool := Qeq_bool q 0.

Fixpoint digits (d : Decimal.uint) : str :=
  match d with
  | Decimal.Nil => []
  | Decimal.D0 d => 48%N :: digits d
  | Decimal.D1 d => 49%N :: digits d
  | Decimal.D2 d => 50%N :: digits d
  | Decimal.D3 d => 51%N :: digits d
  | Decimal.D4 d => 52%N :: digits d
  | Decimal.D5 d => 53%N :: digits d
  | Decimal.D6 d => 54%N :: digits d
  | Decimal.D7 d => 55%N :: digits d
  | Decimal.D8 d => 56%N :: digits d
  | Decimal.D9 d => 57%N :: digits d
  end.

Definition decimal (n : N) : str := digits (N.to_uint n).

(** [n / d] rounded to the nearest integer, ties to even. *)
Definition round_half_even (n d : N) : N :=
  let k := (n / d)%N in
  let r := (n mod d)%N in
  match (2 * r ?= d)%N with
  | Lt => k
  | Gt => (k + 1)%N
  | Eq => if N.even k then k else (k + 1)%N
  end.

(** The [.2f] format of an exact value: correctly rounded, two digits after
    the point, the sign of a negative value kept. *)
Definition two_decimals (q : Q) : str :=
  let hundredths := round_half_even (Z.abs_N (Qnum q) * 100) (Npos (Qden q)) in
  (if (Qnum q <? 0)%Z then lit "-" else [])
  ++ decimal (hundredths / 100) ++ lit "."
  ++ decimal (hundredths mod 100 / 10) ++ decimal (hundredths mod 10).

(** Upper case on ASCII; the instance leaves every other code point as it
    is. *)
Definition ascii_upper (c : char) : str :=
  if ((97 <=? c) && (c <=? 122))%N then [(c - 32)%N] else [c].

#[global] Instance runtime : Runtime := {|
  value := Q;
  truediv := divide;
  is_zero := zero;
  format_2f := two_decimals;
  toupper_full := ascii_upper;
|}.

(** A statement from its rows. *)
Definition frame (rows : list (str * list Q)) : gmap (list N) (list Q) :=
  list_to_map rows.

(** An analyzer as [main] holds it after a successful fetch. *)
Definition fetched (symbol : str) (income balance : gmap (list N) (list Q))
    : FinancialAnalyzer :=
  {| ticker := symbol; stock := symbol;
     income_stmt := Some income; balance_sheet := Some balance;
     cash_flow := Some ∅; financial_ratios := [] |}.

(** A provider that knows one company and a completion API with one
    answer, padded with whitespace. *)
Definition income : gmap (list N) (list Q) :=
  frame [(lit "Gross Profit", [170782000000 # 1; 152836000000 # 1]);
         (lit "Total Revenue", [394328000000 # 1; 365817000000 # 1])].

Definition balance : gmap (list N) (list Q) :=
  frame [(lit "Total Current Assets", [135405000000 # 1]);
         (lit "Total Current Liabilities", [153982000000 # 1]);
         (lit "Total Liab", [302083000000 # 1]);
         (lit "Total Stockholder Equity", [50672000000 # 1])].

Definition answer : str := lit "  The company is in good shape. " ++ LF.

Definition world : World :=
  {| yf_ticker := λ _, Return tt;
     yf_financials := λ _, Return income;
     yf_balance_sheet := λ _, Return balance;
     yf_cashflow := λ _, Return ∅;
     chat_completions_create := λ _, Return [Some answer] |}.
End Exact.

(** ** Further vocabulary *)

Section Coverage.
Context `{RT : Runtime}.

(** Two statements that agree on which line items they hold and on the value
    of each in the most recent period; the later periods are free. *)
Definition same_first_period (df df' : DataFrame) : Prop :=
  ∀ label, head <$> (df !! label) = head <$> (df' !! label).

Definition same_recent (frame frame' : option DataFrame) : Prop :=
  match frame, frame' with
  | Some df, Some df' => same_first_period df df'
  | None, None => True
  | _, _ => False
  end.

(** The reports, the messages of [st.error] and the raw statements a trace
    shows, in order. *)
Definition reports_shown (trace : list event) : list str :=
  trace ≫= λ ev, match ev with StWrite (WText report) => [report] | _ => [] end.

Definition errors_shown (trace : list event) : list str :=
  trace ≫= λ ev, match ev with StError message => [message] | _ => [] end.

Definition frames_shown (trace : list event) : list (option DataFrame) :=
  trace ≫= λ ev, match ev with StWrite (WFrame df) => [df] | _ => [] end.

Definition tables_shown (trace : list event) : list (list (str * value)) :=
  trace ≫= λ ev, match ev with StWrite (WRatioTable rows) => [rows] | _ => [] end.

Definition links_shown (trace : list event) : list str :=
  trace ≫= λ ev, match ev with StMarkdown href => [href] | _ => [] end.

(** The calls a trace makes to the market-data provider. *)
Definition provider_calls (trace : list event) : list event :=
  filter (λ ev, is_Some (symbol_of ev)) trace.

(** Whether a computation returned. *)
Definition returned {A} (r : result A) : bool :=
  match r with Return _ => true | Raise _ => false end.

(** The calculator in closed form. [kept] are the ratios it stores, in the
    order of the source; [first_error] is the exception that ends the guarded
    computations early, if one does; [verdict] is what they evaluate to. *)
Definition kept (a : FinancialAnalyzer) : list (ratio * value) :=
  omap (λ r, (λ q, (r, q)) <$> recorded r a) all_ratios.

Definition apply_stores (stores : list (ratio * value)) (a : FinancialAnalyzer)
    : FinancialAnalyzer :=
  foldl (λ a' rq, store rq.1 rq.2 a') a stores.

Definition first_error (a : FinancialAnalyzer) : option exn :=
  head (omap (λ r, match quotient r a with
                   | Raise e => if is_KeyError e then None else Some e
                   | Return _ => None
                   end) all_ratios).

Definition verdict (a : FinancialAnalyzer) : result (list str) :=
  match first_error a with
  | Some e => Raise e
  | None => Return (ratio_name <$> filter (λ r, lacks_row r a = true) all_ratios)
  end.

(** What the calculator shows for a verdict. *)
Definition verdict_events (v : result (list str)) : list event :=
  match v with
  | Return md =>
      if truthy md then
        [StWarning (lit "Unable to calculate the following ratios due to missing data: "
                    ++ join (lit ", ") md)]
      else []
  | Raise e => [StError (lit "Error calculating financial ratios: " ++ exn_str e)]
  end.
End Coverage.

(** Further providers and completion APIs for the exact instance. *)
Module Cases.

(** The provider refuses to make a handle. *)
Definition no_handle : World :=
  {| yf_ticker := λ _, Raise (Exn OtherException (lit "no handle"));
     yf_financials := λ _, Return Exact.income;
     yf_balance_sheet := λ _, Return Exact.balance;
     yf_cashflow := λ _, Return ∅;
     chat_completions_create := λ _, Return [Some Exact.answer] |}.

(** The provider fails on the balance sheet. *)
Definition offline : World :=
  {| yf_ticker := λ _, Return tt;
     yf_financials := λ _, Return Exact.income;
     yf_balance_sheet := λ _, Raise (Exn OtherException (lit "connection refused"));
     yf_cashflow := λ _, Return ∅;
     chat_completions_create := λ _, Return [Some Exact.answer] |}.

(** The provider knows nothing of the company: its statements are empty. *)
Definition unknown : World :=
  {| yf_ticker := λ _, Return tt;
     yf_financials := λ _, Return ∅;
     yf_balance_sheet := λ _, Return ∅;
     yf_cashflow := λ _, Return ∅;
     chat_completions_create := λ _, Return [Some Exact.answer] |}.


(** The income statement reports no revenue. *)
Definition no_revenue : World :=
  {| yf_ticker := λ _, Return tt;
     yf_financials := λ _, Return (Exact.frame [(lit "Gross Profit", [1 # 1]);
                                                (lit "Total Revenue", [0 # 1])]);
     yf_balance_sheet := λ _, Return Exact.balance;
     yf_cashflow := λ _, Return ∅;
     chat_completions_create := λ _, Return [Some Exact.answer] |}.

(** A balance sheet whose rows have no period at all. *)
Definition no_periods : gmap (list N) (list Q) :=
  Exact.frame [(lit "Total Current Assets", []);
               (lit "Total Current Liabilities", [])].
End Cases.

(** ** The page in closed form *)

Section PageVocabulary.
Context `{RT : Runtime}.

(** The request the report step sends for an analyzer: built from the ratios
    when there is one, from the ticker alone otherwise. *)
Definition request_of (a : FinancialAnalyzer) : request :=
  if truthy (financial_ratios a) then ratio_request (ticker a) (financial_ratios a)
  else fallback_request (ticker a).

(** [if report:] holds for a report that is neither [None] nor empty. *)
Definition displayable (report : option str) : option str :=
  match report with
  | Some ((_ :: _) as text) => Some text
  | _ => None
  end.

(** The analyzer a run of [main] reaches the report step with, if it does. *)
Definition reported (W : World) (text_input : str) : option FinancialAnalyzer :=
  if truthy (upper text_input) then analyzed W (upper text_input) else None.

Definition failure_shown (trace : list event) : Prop :=
  StError (lit "Failed to generate financial report.") ∈ trace
  ∨ StError (lit "Unable to generate report due to insufficient data.") ∈ trace.

Definition whitespace (s : str) : Prop := Forall (λ c, isspace c = true) s.
End PageVocabulary.

(** ** The services a run calls *)

Section Services.
Context `{RT : Runtime}.

(** The calls of a trace to the provider and to the completion API, in
    the order they were made. *)
Definition is_service_call (ev : event) : bool :=
  match ev with
  | YfTicker _ | YfFinancials _ | YfBalanceSheet _ | YfCashflow _
  | ChatCompletionsCreate _ => true
  | _ => false
  end.

Definition service_calls (trace : list event) : list event :=
  filter (λ ev, is_service_call ev = true) trace.

(** A sequence of calls, each with whether it returns, made up to and
    including the first that does not. *)
Fixpoint until_failure {A} (calls : list (A * bool)) : list A :=
  match calls with
  | [] => []
  | (call, ok) :: rest => call :: (if ok then until_failure rest else [])
  end.

(** What [main] asks of the provider for [symbol], in the order of the
    source: the handle (line 26), then the three statements (lines 34 to
    36). *)
Definition provider_attempts (W : World) (symbol : str) : list (event * bool) :=
  [(YfTicker symbol, returned (yf_ticker W symbol));
   (YfFinancials symbol, returned (yf_financials W symbol));
   (YfBalanceSheet symbol, returned (yf_balance_sheet W symbol));
   (YfCashflow symbol, returned (yf_cashflow W symbol))].
End Services.

(** * Properties *)

Arguments lit : simpl never.
Arguments store : simpl never.

(** ** The monad and the dictionary *)

Lemma bind_run {E S A B} (m : Py E S A) (k : A → Py E S B) (s : S) :
  (m ≫= k) s = match m s with
               | (Return a, s', out) =>
                   match k a s' with
                   | (r, s'', out') => (r, s'', out ++ out')
                   end
               | (Raise e, s', out) => (Raise e, s', out)
               end.
Proof. reflexivity. Qed.

Lemma ret_run {E S A} (x : A) (s : S) : (mret x : Py E S A) s = (Return x, s, []).
Proof. reflexivity. Qed.

Lemma emit_run {E S} (ev : E) (s : S) : (emit ev : Py E S unit) s = (Return tt, s, [ev]).
Proof. reflexivity. Qed.

Lemma result_bind_Return {A B} (a : A) (k : A → result B) :
  result_bind (Return a) k = k a.
Proof. reflexivity. Qed.

Section DictFacts.
Context {V : Type}.
Implicit Types (d : list (str * V)) (k : str) (v : V).

Lemma dict_get_set_eq d k v : dict_get k (dict_set k v d) = Some v.
Proof.
  induction d as [|[k' v'] d IH]; simpl.
  - by rewrite decide_True.
  - destruct (decide (k' = k)) as [->|Hne]; simpl.
    + by rewrite decide_True.
    + by rewrite decide_False.
Qed.

Lemma dict_get_set_ne d k k' v : k ≠ k' → dict_get k' (dict_set k v d) = dict_get k' d.
Proof.
  intros Hne. induction d as [|[k0 v0] d IH]; simpl.
  - by rewrite decide_False.
  - destruct (decide (k0 = k)) as [->|Hne0]; simpl.
    + by rewrite !decide_False.
    + destruct (decide (k0 = k')); [done | apply IH].
Qed.
End DictFacts.

Lemma ratio_name_inj (r r' : ratio) : ratio_name r = ratio_name r' → r = r'.
Proof. destruct r, r'; intros H; try reflexivity; vm_compute in H; discriminate. Qed.

(** ** The ratio calculator *)

Section Calculator.
Context `{RT : Runtime}.
Implicit Types (a : FinancialAnalyzer) (r : ratio).

Lemma statement_of_store r r' q a : statement_of r (store r' q a) = statement_of r a.
Proof. by destruct r. Qed.

Lemma quotient_store r r' q a : quotient r (store r' q a) = quotient r a.
Proof. unfold quotient. by rewrite statement_of_store. Qed.

Lemma entry_store_eq r q a :
  dict_get (ratio_name r) (financial_ratios (store r q a)) = Some q.
Proof. apply dict_get_set_eq. Qed.

Lemma entry_store_ne r r' q a :
  r' ≠ r →
  dict_get (ratio_name r) (financial_ratios (store r' q a))
  = dict_get (ratio_name r) (financial_ratios a).
Proof. intros Hne. apply dict_get_set_ne. intros H. by apply ratio_name_inj in H. Qed.

(** The source's three blocks are three steps of the same shape. *)
Lemma ratio_blocks_steps a :
  ratio_blocks a
  = (md ← block_step GrossMargin [];
     md ← block_step CurrentRatio md;
     md ← block_step DebtToEquity md;
     mret md) a.
Proof.
  unfold ratio_blocks, block_step, quotient, cell, set_ratio, modify, gets, lift.
  unfold mbind, Py_bind, py_bind, mret, Py_ret, py_ret, try_except, statement_of, store.
  simpl.
  destruct (result_bind (loc (income_stmt a) (lit "Gross Profit")) iloc0) as [x1|e1]; simpl;
    [destruct (result_bind (loc (income_stmt a) (lit "Total Revenue")) iloc0) as [y1|e1]; simpl;
     [destruct (truediv x1 y1) as [q1|e1]; simpl|]|].
  all: try (destruct (is_KeyError e1); simpl; [|reflexivity]).
  all: destruct (result_bind (loc (balance_sheet a) (lit "Total Current Assets")) iloc0) as [x2|e2]; simpl;
    [destruct (result_bind (loc (balance_sheet a) (lit "Total Current Liabilities")) iloc0) as [y2|e2]; simpl;
     [destruct (truediv x2 y2) as [q2|e2]; simpl|]|].
  all: try (destruct (is_KeyError e2); simpl; [|reflexivity]).
  all: destruct (result_bind (loc (balance_sheet a) (lit "Total Liab")) iloc0) as [x3|e3]; simpl;
    [destruct (result_bind (loc (balance_sheet a) (lit "Total Stockholder Equity")) iloc0) as [y3|e3]; simpl;
     [destruct (truediv x3 y3) as [q3|e3]; simpl|]|].
  all: try (destruct (is_KeyError e3); simpl); reflexivity.
Qed.

Lemma calculate_run a :
  calculate_financial_ratios a
  = match ratio_blocks a with
    | (Return md, a', out) =>
        (Return tt, a',
         out ++ (if truthy md then
                   [StWarning
                      (lit "Unable to calculate the following ratios due to missing data: "
                       ++ join (lit ", ") md)]
                 else []))
    | (Raise e, a', out) =>
        (Return tt, a',
         out ++ [StError (lit "Error calculating financial ratios: " ++ exn_str e)])
    end.
Proof.
  unfold calculate_financial_ratios, try_except. rewrite bind_run.
  destruct (ratio_blocks a) as [[[md|e] a'] out]; [|reflexivity].
  by destruct md.
Qed.

(** The calculator never raises. *)
Lemma calculate_returns a : (calculate_financial_ratios a).1.1 = Return tt.
Proof. rewrite calculate_run. by destruct (ratio_blocks a) as [[[md|e] a'] out]. Qed.

Lemma block_outcome_cases r a : block_outcome r a.
Proof.
  destruct (quotient r a) as [q|e] eqn:Hq.
  - eapply Computes; [done | |]; unfold abandons, lacks_row; by rewrite Hq.
  - destruct (is_KeyError e) eqn:Hk.
    + eapply Misses; [done..| |]; unfold abandons, lacks_row; by rewrite Hq, Hk.
    + eapply Abandons; [done..| |]; unfold abandons, lacks_row; by rewrite Hq, Hk.
Qed.

Lemma block_step_computes r md a q :
  quotient r a = Return q → block_step r md a = (Return md, store r q a, []).
Proof. unfold block_step. by intros ->. Qed.

Lemma block_step_misses r md a e :
  quotient r a = Raise e → is_KeyError e = true →
  block_step r md a = (Return (md ++ [ratio_name r]), a, []).
Proof. unfold block_step. by intros -> ->. Qed.

Lemma block_step_abandons r md a e :
  quotient r a = Raise e → is_KeyError e = false →
  block_step r md a = (Raise e, a, []).
Proof. unfold block_step. by intros -> ->. Qed.
End Calculator.

(** Run the next guarded computation of a chain, given what its quotient is. *)
Ltac run_block :=
  rewrite bind_run;
  first
    [ erewrite block_step_computes by (rewrite ?quotient_store; eassumption)
    | erewrite block_step_misses by (rewrite ?quotient_store; eassumption)
    | erewrite block_step_abandons by (rewrite ?quotient_store; eassumption) ];
  cbv beta iota.

(** Split on the outcome of each of the three ratios and run the blocks. *)
Ltac blocks_cases a :=
  rewrite ?ratio_blocks_steps;
  destruct (block_outcome_cases GrossMargin a)
    as [?q ?H ?A ?L|?e ?H ?K ?A ?L|?e ?H ?K ?A ?L];
  destruct (block_outcome_cases CurrentRatio a)
    as [?q ?H ?A ?L|?e ?H ?K ?A ?L|?e ?H ?K ?A ?L];
  destruct (block_outcome_cases DebtToEquity a)
    as [?q ?H ?A ?L|?e ?H ?K ?A ?L|?e ?H ?K ?A ?L];
  repeat run_block; rewrite ?ret_run; cbv beta iota; cbn [fst snd app].

Ltac use_outcomes :=
  repeat match goal with
    | H : quotient _ _ = _ |- _ => rewrite ?H in *; clear H
    | H : abandons _ _ = _ |- _ => rewrite ?H in *; clear H
    | H : lacks_row _ _ = _ |- _ => rewrite ?H in *; clear H
    end.

Section Blocks.
Context `{RT : Runtime}.
Implicit Types (a : FinancialAnalyzer) (r : ratio).

(** What the blocks leave behind, for each of the twenty-seven combinations. *)
Lemma ratio_blocks_entry a r :
  dict_get (ratio_name r) (financial_ratios (ratio_blocks a).1.2)
  = match recorded r a with
    | Some q => Some q
    | None => dict_get (ratio_name r) (financial_ratios a)
    end.
Proof.
  unfold recorded, reached. blocks_cases a.
  all: destruct r; cbn [earlier forallb]; use_outcomes; cbn [negb andb];
    repeat first [rewrite entry_store_eq | rewrite entry_store_ne by done]; done.
Qed.

(** The blocks emit nothing. *)
Lemma ratio_blocks_silent a : (ratio_blocks a).2 = [].
Proof. by blocks_cases a. Qed.

(** When no ratio lets an exception through, the blocks return the names of
    the ratios that lack a row, in order. *)
Lemma ratio_blocks_missing a :
  (∀ r, abandons r a = false) →
  (ratio_blocks a).1.1
  = Return (ratio_name <$> filter (λ r, lacks_row r a = true) all_ratios).
Proof.
  intros Hno. unfold all_ratios.
  pose proof (Hno GrossMargin) as N1. pose proof (Hno CurrentRatio) as N2.
  pose proof (Hno DebtToEquity) as N3.
  blocks_cases a; try congruence.
  all: rewrite !filter_cons, filter_nil; use_outcomes.
  all: repeat (first [rewrite decide_True by done | rewrite decide_False by done]).
  all: reflexivity.
Qed.

(** When some ratio does, the blocks raise what the first such ratio raised,
    and that is not a [KeyError]. *)
Lemma ratio_blocks_abandoned a r :
  abandons r a = true →
  ∃ e r', (ratio_blocks a).1.1 = Raise e ∧ is_KeyError e = false
          ∧ quotient r' a = Raise e ∧ reached r' a = true
          ∧ (r' = r ∨ r' ∈ earlier r).
Proof.
  intros Hab. unfold reached.
  blocks_cases a.
  all: destruct r; try congruence.
  all: try (eexists _, GrossMargin; cbn [earlier forallb negb andb fst];
            split_and!; [reflexivity|eassumption|eassumption|reflexivity|set_solver]).
  all: try (eexists _, CurrentRatio; cbn [earlier forallb negb andb fst];
            split_and!; [reflexivity|eassumption|eassumption|by use_outcomes|set_solver]).
  all: try (eexists _, DebtToEquity; cbn [earlier forallb negb andb fst];
            split_and!; [reflexivity|eassumption|eassumption|by use_outcomes|set_solver]).
Qed.

Lemma calculate_self a :
  (calculate_financial_ratios a).1.2 = (ratio_blocks a).1.2.
Proof.
  rewrite calculate_run. by destruct (ratio_blocks a) as [[[md|e] a'] out].
Qed.

(** The calculator leaves everything but the ratios as it was. *)
Lemma calculate_keeps a :
  let a' := (calculate_financial_ratios a).1.2 in
  ticker a' = ticker a ∧ stock a' = stock a ∧ income_stmt a' = income_stmt a
  ∧ balance_sheet a' = balance_sheet a ∧ cash_flow a' = cash_flow a.
Proof. simpl. rewrite calculate_self. by blocks_cases a. Qed.

(** *** Look-ups *)

Lemma first_period_Some (df : DataFrame) label x :
  first_period df label = Some x ↔ ∃ row, df !! label = Some (x :: row).
Proof.
  unfold first_period. destruct (df !! label) as [[|v row]|]; simpl; split.
  all: try (intros [? ?]); try intros ?; simplify_eq; eauto.
Qed.

Lemma cell_value (df : DataFrame) label x :
  first_period df label = Some x → result_bind (loc (Some df) label) iloc0 = Return x.
Proof. intros [row Hrow]%first_period_Some. simpl. by rewrite Hrow. Qed.

Lemma cell_value_inv frame label x :
  result_bind (loc frame label) iloc0 = Return x →
  ∃ df, frame = Some df ∧ first_period df label = Some x.
Proof.
  destruct frame as [df|]; [|done]. intros H. exists df. split; [done|].
  simpl in H. unfold first_period.
  destruct (df !! label) as [[|v row]|]; simpl in *; congruence.
Qed.

Lemma quotient_present r a x y : rows_present r a x y → quotient r a = truediv x y.
Proof.
  intros (df & Hdf & Hx & Hy). unfold quotient. rewrite Hdf.
  rewrite (cell_value _ _ _ Hx), result_bind_Return.
  by rewrite (cell_value _ _ _ Hy), result_bind_Return.
Qed.

Lemma quotient_Return_inv r a q :
  quotient r a = Return q → ∃ x y, rows_present r a x y ∧ truediv x y = Return q.
Proof.
  unfold quotient.
  destruct (result_bind (loc (statement_of r a) (numerator r)) iloc0) as [x|] eqn:Hx;
    [|done]. rewrite result_bind_Return.
  destruct (result_bind (loc (statement_of r a) (denominator r)) iloc0) as [y|] eqn:Hy;
    [|done]. rewrite result_bind_Return. intros Hq.
  apply cell_value_inv in Hx as (df & Hdf & Hx).
  apply cell_value_inv in Hy as (df' & Hdf' & Hy).
  exists x, y. split; [|done]. exists df. rewrite Hdf in Hdf'. by simplify_eq.
Qed.

(** A missing row either makes the guarded statements raise [KeyError] or
    comes after a look-up that already raised something else. *)
Lemma quotient_row_missing r a :
  row_missing r a → abandons r a = false → lacks_row r a = true.
Proof.
  intros (df & Hdf & Hmiss). unfold abandons, lacks_row, quotient. rewrite Hdf.
  destruct (df !! numerator r) as [[|x row]|] eqn:Hn.
  - simpl. rewrite Hn. simpl. done.
  - destruct Hmiss as [|Hd]; [done|].
    simpl. rewrite Hn, Hd. simpl. done.
  - simpl. rewrite Hn. simpl. done.
Qed.

(** Under Python's scalar division the guarded statements return exactly
    when the ratio is computable. *)
Lemma quotient_Return_iff_computable r a :
  division_returns_on_nonzero → division_raises_on_zero →
  (∃ q, quotient r a = Return q) ↔ computable r a.
Proof.
  intros Hnz Hz. split.
  - intros [q (x & y & Hrows & Hq)%quotient_Return_inv].
    exists x, y. split; [done|].
    destruct (is_zero y) eqn:Hy; [|done].
    destruct (Hz x y Hy) as (e & He & _). congruence.
  - intros (x & y & Hrows & Hy). rewrite (quotient_present _ _ _ _ Hrows).
    by apply Hnz.
Qed.

Lemma reached_spec r a :
  reached r a = true ↔ ∀ r', r' ∈ earlier r → abandons r' a = false.
Proof.
  unfold reached. rewrite forallb_forall. split.
  - intros H r' Hin. apply list_elem_of_In, H in Hin. by destruct (abandons r' a).
  - intros H r' Hin. apply list_elem_of_In, H in Hin. by rewrite Hin.
Qed.

Lemma recorded_Some r a q :
  recorded r a = Some q ↔ reached r a = true ∧ quotient r a = Return q.
Proof.
  unfold recorded. destruct (reached r a), (quotient r a); split;
    try intros [? ?]; try intros ?; simplify_eq; auto.
Qed.

(** The entry of [r] after the calculator has run on an analyzer without
    ratios. *)
Lemma calculate_entry_fresh a r :
  financial_ratios a = [] →
  dict_get (ratio_name r) (financial_ratios (calculate_financial_ratios a).1.2)
  = recorded r a.
Proof.
  intros Hfresh. rewrite calculate_self, ratio_blocks_entry.
  rewrite Hfresh. by destruct (recorded r a).
Qed.

Lemma abandons_zero_denominator (Hz : division_raises_on_zero) r a x y :
  rows_present r a x y → is_zero y = true → abandons r a = true.
Proof.
  intros Hrows Hy. unfold abandons. rewrite (quotient_present _ _ _ _ Hrows).
  destruct (Hz x y Hy) as (e & -> & Hclass). unfold is_KeyError. by rewrite Hclass.
Qed.

(** Under Python's scalar division, what makes the guarded statements of a
    ratio raise past their handler: a statement that is still [None], a zero
    denominator under present line items, or a row without any period met
    before a missing row. *)
Lemma abandons_spec (Hnz : division_returns_on_nonzero) (Hz : division_raises_on_zero)
    r a :
  abandons r a = true
  ↔ statement_of r a = None
    ∨ (∃ x y, rows_present r a x y ∧ is_zero y = true)
    ∨ (∃ df, statement_of r a = Some df
             ∧ (df !! numerator r = Some []
                ∨ (is_Some (first_period df (numerator r))
                   ∧ df !! denominator r = Some []))).
Proof.
  unfold abandons, quotient, rows_present, first_period.
  destruct (statement_of r a) as [df|]; [|by split; [left|]].
  cbn [loc]. split.
  - destruct (df !! numerator r) as [[|x rowx]|] eqn:Hn; cbn [result_bind iloc0];
      [intros _; right; right; eauto| |done].
    destruct (df !! denominator r) as [[|y rowy]|] eqn:Hd; cbn [result_bind iloc0];
      [intros _; right; right; exists df; rewrite Hn; eauto| |done].
    intros Hab. right. left. exists x, y. split.
    + exists df. rewrite Hn, Hd. done.
    + destruct (is_zero y) eqn:Hy; [done|].
      destruct (Hnz x y Hy) as [q Hq]. by rewrite Hq in Hab.
  - intros [?|[(x & y & (df' & [= <-] & Hx & Hy) & Hzero)|(df' & [= <-] & Hrow)]];
      [done| |].
    + destruct (df !! numerator r) as [[|x' rowx]|]; simplify_eq/=.
      destruct (df !! denominator r) as [[|y' rowy]|]; simplify_eq/=.
      destruct (Hz x y Hzero) as (e & -> & Hclass). unfold is_KeyError.
      by rewrite Hclass.
    + destruct Hrow as [->|[[x Hx] Hd]]; [done|].
      destruct (df !! numerator r) as [[|x' rowx]|]; simplify_eq/=.
      by rewrite Hd.
Qed.

Lemma occurrences_among_ratios r (P : ratio → Prop) `{∀ x, Decision (P x)} :
  occurrences (ratio_name r) (ratio_name <$> filter P all_ratios)
  = if decide (P r) then 1%nat else 0%nat.
Proof.
  unfold all_ratios. rewrite !filter_cons, filter_nil.
  destruct r; repeat case_decide; try done; vm_compute; reflexivity.
Qed.
End Blocks.

(** ** The exact instance obeys Python's scalar division *)

Lemma Exact_division_returns_on_nonzero : @division_returns_on_nonzero Exact.runtime.
Proof.
  intros x y Hy. simpl in *. unfold Exact.divide, Exact.zero in *. rewrite Hy. eauto.
Qed.

Lemma Exact_division_raises_on_zero : @division_raises_on_zero Exact.runtime.
Proof.
  intros x y Hy. simpl in *. unfold Exact.divide, Exact.zero in *. rewrite Hy. eauto.
Qed.


(** ** What the specification says about the calculator *)

Section CalculatorClaims.
Context `{RT : Runtime}.
Implicit Types (a : FinancialAnalyzer) (r : ratio).

(** C1. When the most recent period of the income statement holds Gross
    Profit and Total Revenue, that of the balance sheet holds Total Current
    Assets, Total Current Liabilities, Total Liab and Total Stockholder
    Equity, and no denominator is zero, the calculator returns normally,
    shows nothing, and records under Gross Margin, Current Ratio and
    Debt-to-Equity Ratio the three quotients of those first-column values;
    on an analyzer without ratios these are the only entries, in this
    order. *)
Theorem C1_ratios_are_first_period_quotients
    (Hnz : division_returns_on_nonzero) a gp rev ca cl tl se :
  rows_present GrossMargin a gp rev →
  rows_present CurrentRatio a ca cl →
  rows_present DebtToEquity a tl se →
  is_zero rev = false → is_zero cl = false → is_zero se = false →
  ∃ q1 q2 q3 a',
    truediv gp rev = Return q1 ∧ truediv ca cl = Return q2 ∧ truediv tl se = Return q3
    ∧ calculate_financial_ratios a = (Return tt, a', [])
    ∧ dict_get (lit "Gross Margin") (financial_ratios a') = Some q1
    ∧ dict_get (lit "Current Ratio") (financial_ratios a') = Some q2
    ∧ dict_get (lit "Debt-to-Equity Ratio") (financial_ratios a') = Some q3
    ∧ (financial_ratios a = [] →
       financial_ratios a'
       = [(lit "Gross Margin", q1); (lit "Current Ratio", q2);
          (lit "Debt-to-Equity Ratio", q3)]).
Proof.
  intros R1 R2 R3 Z1 Z2 Z3.
  destruct (Hnz gp rev Z1) as [q1 Hq1], (Hnz ca cl Z2) as [q2 Hq2],
    (Hnz tl se Z3) as [q3 Hq3].
  assert (H1 : quotient GrossMargin a = Return q1)
    by exact (eq_trans (quotient_present _ _ _ _ R1) Hq1).
  assert (H2 : quotient CurrentRatio a = Return q2)
    by exact (eq_trans (quotient_present _ _ _ _ R2) Hq2).
  assert (H3 : quotient DebtToEquity a = Return q3)
    by exact (eq_trans (quotient_present _ _ _ _ R3) Hq3).
  set (a' := store DebtToEquity q3 (store CurrentRatio q2 (store GrossMargin q1 a))).
  assert (Hrun : ratio_blocks a = (Return [], a', [])).
  { rewrite ratio_blocks_steps. by repeat run_block. }
  exists q1, q2, q3, a'. split_and!; try done.
  - by rewrite calculate_run, Hrun.
  - change (lit "Gross Margin") with (ratio_name GrossMargin). unfold a'.
    by rewrite !entry_store_ne, entry_store_eq by done.
  - change (lit "Current Ratio") with (ratio_name CurrentRatio). unfold a'.
    by rewrite !entry_store_ne, entry_store_eq by done.
  - change (lit "Debt-to-Equity Ratio") with (ratio_name DebtToEquity). unfold a'.
    by rewrite entry_store_eq.
  - intros Hfresh. unfold a', store. simpl. by rewrite Hfresh.
Qed.

(** C2, as the code has it. After the calculator has run on an analyzer
    without ratios, a ratio of the fixed set has an entry if and only if
    both its line items were present in the most recent period of its
    statement, the division of the first by the second returned a value, and
    no ratio computed before it (the order is Gross Margin, Current Ratio,
    Debt-to-Equity Ratio) ended in an error other than a missing row.
    Nothing is assumed of the division: where it raises on a zero
    denominator the ratio gets no entry and neither does any later one;
    where it returns a value there, the value is stored. *)
Theorem C2_entry_iff_quotient_returned_and_reached a r :
  financial_ratios a = [] →
  has_entry r (calculate_financial_ratios a).1.2
  ↔ (∃ x y q, rows_present r a x y ∧ truediv x y = Return q)
    ∧ ∀ r', r' ∈ earlier r → abandons r' a = false.
Proof.
  intros Hfresh. unfold has_entry. rewrite calculate_entry_fresh by done.
  rewrite <- reached_spec. split.
  - intros [q [Hreach Hq]%recorded_Some]. split; [|done].
    destruct (quotient_Return_inv _ _ _ Hq) as (x & y & Hrows & Hdiv).
    by exists x, y, q.
  - intros [(x & y & q & Hrows & Hdiv) Hreach]. exists q.
    apply recorded_Some. split; [done|].
    by rewrite (quotient_present _ _ _ _ Hrows).
Qed.

(** C3, as the code has it. Provided no ratio ends in an error other than a
    missing row (a zero denominator is such an error), the three guarded
    computations finish with a missing-data list, and for every ratio: if
    one of its rows is missing, the ratio gets no entry and its name is in
    the list exactly once; if both its line items are present with a
    non-zero denominator, it is stored as their quotient and its name is not
    in the list, whatever rows the other ratios lack. The calculator then
    returns, having shown the one warning that joins the list when the list
    is not empty and nothing otherwise. *)
Theorem C3_missing_rows_are_isolated
    (Hnz : division_returns_on_nonzero) a :
  financial_ratios a = [] →
  (∀ r, abandons r a = false) →
  ∃ md a',
    ratio_blocks a = (Return md, a', [])
    ∧ calculate_financial_ratios a
      = (Return tt, a',
         if truthy md then
           [StWarning
              (lit "Unable to calculate the following ratios due to missing data: "
               ++ join (lit ", ") md)]
         else [])
    ∧ ∀ r,
        (row_missing r a →
         ¬ has_entry r a' ∧ occurrences (ratio_name r) md = 1%nat)
        ∧ (∀ x y, rows_present r a x y → is_zero y = false →
           ∃ q, truediv x y = Return q
                ∧ dict_get (ratio_name r) (financial_ratios a') = Some q
                ∧ occurrences (ratio_name r) md = 0%nat).
Proof.
  intros Hfresh Hno.
  pose proof (ratio_blocks_missing a Hno) as Hmd.
  pose proof (ratio_blocks_silent a) as Hout.
  pose proof (ratio_blocks_entry a) as Hentry.
  pose proof (calculate_run a) as Hcalc.
  destruct (ratio_blocks a) as [[res a'] out]. simpl in Hmd, Hout, Hentry. subst res out.
  eexists _, a'. split; [reflexivity|]. split; [exact Hcalc|].
  intros r. split.
  - intros Hmiss. pose proof (quotient_row_missing _ _ Hmiss (Hno r)) as Hlack.
    split.
    + unfold has_entry. rewrite Hentry, Hfresh. unfold recorded, lacks_row in *.
      destruct (reached r a), (quotient r a); simpl; try done; by intros [? ?].
    + rewrite occurrences_among_ratios. by rewrite decide_True.
  - intros x y Hrows Hy. destruct (Hnz x y Hy) as [q Hq]. exists q. split; [done|].
    assert (Hquot : quotient r a = Return q)
      by exact (eq_trans (quotient_present _ _ _ _ Hrows) Hq).
    split.
    + rewrite Hentry. replace (recorded r a) with (Some q); [done|].
      symmetry. apply recorded_Some. split; [|done].
      apply reached_spec. auto.
    + rewrite occurrences_among_ratios. rewrite decide_False; [done|].
      unfold lacks_row. by rewrite Hquot.
Qed.

(** C4, as the code has it. When both line items of a ratio are present and
    their division raises anything but [KeyError] (a zero denominator, a
    value that is not a number), no per-ratio handler catches the error: the
    guarded computations raise. The outer handler of the calculator does
    catch it: the calculator returns normally, having shown one message,
    [Error calculating financial ratios:] followed by the text of the first
    such error, and no missing-data warning; the ratio and every ratio after
    it are left without a new entry. *)
Theorem C4_division_error_reaches_outer_handler a r x y e :
  rows_present r a x y → truediv x y = Raise e → is_KeyError e = false →
  ∃ e' a',
    (ratio_blocks a).1.1 = Raise e'
    ∧ is_KeyError e' = false
    ∧ (reached r a = true → e' = e)
    ∧ calculate_financial_ratios a
      = (Return tt, a',
         [StError (lit "Error calculating financial ratios: " ++ exn_str e')])
    ∧ ∀ r', r' = r ∨ r ∈ earlier r' →
            dict_get (ratio_name r') (financial_ratios a')
            = dict_get (ratio_name r') (financial_ratios a).
Proof.
  intros Hrows Hdiv Hkey.
  assert (Hquot : quotient r a = Raise e)
    by exact (eq_trans (quotient_present _ _ _ _ Hrows) Hdiv).
  assert (Hab : abandons r a = true).
  { unfold abandons. by rewrite Hquot, Hkey. }
  destruct (ratio_blocks_abandoned a r Hab) as (e' & r0 & Hres & Hkey' & Hq0 & Hreach0 & Hr0).
  pose proof (ratio_blocks_silent a) as Hout.
  pose proof (ratio_blocks_entry a) as Hentry.
  pose proof (calculate_run a) as Hcalc.
  destruct (ratio_blocks a) as [[res a'] out]. simpl in Hres, Hout, Hentry. subst res out.
  exists e', a'. split_and!; try done.
  - intros Hreach. destruct Hr0 as [->|Hin].
    + congruence.
    + pose proof (proj1 (reached_spec _ _) Hreach r0 Hin) as Hnot.
      unfold abandons in Hnot. rewrite Hq0, Hkey' in Hnot. done.
  - intros r' Hr'. rewrite Hentry.
    replace (recorded r' a) with (@None value); [done|].
    unfold recorded. destruct Hr' as [->|Hin].
    + rewrite Hquot. by destruct (reached r a).
    + destruct (reached r' a) eqn:Hreach; [|done].
      pose proof (proj1 (reached_spec _ _) Hreach r Hin) as Hnot.
      congruence.
Qed.
End CalculatorClaims.

(** ** The calculator on concrete statements *)

Lemma C1_witness :
  let a := Exact.fetched (lit "AAPL")
             (Exact.frame [(lit "Gross Profit", [170782000000 # 1; 152836000000 # 1]);
                           (lit "Total Revenue", [394328000000 # 1; 365817000000 # 1])])
             (Exact.frame [(lit "Total Current Assets", [135405000000 # 1]);
                           (lit "Total Current Liabilities", [153982000000 # 1]);
                           (lit "Total Liab", [302083000000 # 1]);
                           (lit "Total Stockholder Equity", [50672000000 # 1])]) in
  let gross_margin := 85391 # 197164 in
  let current_ratio := 135405 # 153982 in
  let debt_to_equity := 302083 # 50672 in
  (gross_margin == (170782000000 # 1) / (394328000000 # 1)
   ∧ current_ratio == (135405000000 # 1) / (153982000000 # 1)
   ∧ debt_to_equity == (302083000000 # 1) / (50672000000 # 1))%Q
  ∧ ∃ a',
      calculate_financial_ratios a = (Return tt, a', [])
      ∧ dict_get (lit "Gross Margin") (financial_ratios a') = Some gross_margin
      ∧ dict_get (lit "Current Ratio") (financial_ratios a') = Some current_ratio
      ∧ dict_get (lit "Debt-to-Equity Ratio") (financial_ratios a') = Some debt_to_equity
      ∧ financial_ratios a'
        = [(lit "Gross Margin", gross_margin); (lit "Current Ratio", current_ratio);
           (lit "Debt-to-Equity Ratio", debt_to_equity)].
Proof.
  intros a gross_margin current_ratio debt_to_equity.
  split; [by split_and!|].
  destruct (C1_ratios_are_first_period_quotients (RT := Exact.runtime)
              Exact_division_returns_on_nonzero a
              (170782000000 # 1) (394328000000 # 1)
              (135405000000 # 1) (153982000000 # 1)
              (302083000000 # 1) (50672000000 # 1))
    as (q1 & q2 & q3 & a' & D1 & D2 & D3 & Hrun & H1 & H2 & H3 & Hall).
  - eexists. split_and!; [reflexivity | vm_compute; reflexivity..].
  - eexists. split_and!; [reflexivity | vm_compute; reflexivity..].
  - eexists. split_and!; [reflexivity | vm_compute; reflexivity..].
  - reflexivity.
  - reflexivity.
  - reflexivity.
  - vm_compute in D1, D2, D3.
    injection D1 as <-. injection D2 as <-. injection D3 as <-.
    exists a'. split_and!; [done..|]. by apply Hall.
Defined.

(** With a zero Total Revenue the Gross Margin division raises, the outer
    handler ends the run, and Current Ratio has no entry although both its
    line items are present and its denominator is not zero. *)
Lemma C2_counterexample :
  let a := Exact.fetched (lit "AAPL")
             (Exact.frame [(lit "Gross Profit", [1 # 1]); (lit "Total Revenue", [0 # 1])])
             (Exact.frame [(lit "Total Current Assets", [2 # 1]);
                           (lit "Total Current Liabilities", [1 # 1]);
                           (lit "Total Liab", [1 # 1]);
                           (lit "Total Stockholder Equity", [2 # 1])]) in
  ¬ (has_entry CurrentRatio (calculate_financial_ratios a).1.2
     ↔ computable CurrentRatio a).
Proof.
  intros a [_ Hback].
  assert (Hc : computable CurrentRatio a).
  { exists (2 # 1), (1 # 1). split; [|reflexivity].
    eexists. split_and!; [reflexivity | vm_compute; reflexivity..]. }
  apply Hback in Hc. destruct Hc as [q Hq]. vm_compute in Hq. discriminate.
Qed.

Lemma C2_witness :
  let a := Exact.fetched (lit "AAPL") Exact.income Exact.balance in
  has_entry CurrentRatio (calculate_financial_ratios a).1.2
  ∧ (∃ x y q, rows_present CurrentRatio a x y ∧ Exact.divide x y = Return q)
  ∧ ∀ r', r' ∈ earlier CurrentRatio → abandons r' a = false.
Proof.
  intros a.
  assert ((∃ x y q, rows_present CurrentRatio a x y ∧ Exact.divide x y = Return q)
          ∧ ∀ r', r' ∈ earlier CurrentRatio → abandons r' a = false) as Hright.
  { split.
    - exists (135405000000 # 1), (153982000000 # 1), (135405 # 153982).
      split; [|reflexivity].
      eexists. split_and!; [reflexivity | vm_compute; reflexivity..].
    - intros r' Hin. apply list_elem_of_singleton in Hin as ->.
      vm_compute. reflexivity. }
  split; [|exact Hright].
  by apply (C2_entry_iff_quotient_returned_and_reached (RT := Exact.runtime) a
              CurrentRatio eq_refl).
Defined.

(** With a zero Total Revenue, no Total Current Assets row and a computable
    Debt-to-Equity Ratio: the run ends in the outer handler before it reaches
    the two later ratios, so there is no missing-data list naming Current
    Ratio, no warning, and no Debt-to-Equity entry. *)
Lemma C3_counterexample :
  let a := Exact.fetched (lit "AAPL")
             (Exact.frame [(lit "Gross Profit", [1 # 1]); (lit "Total Revenue", [0 # 1])])
             (Exact.frame [(lit "Total Current Liabilities", [1 # 1]);
                           (lit "Total Liab", [1 # 1]);
                           (lit "Total Stockholder Equity", [2 # 1])]) in
  row_missing CurrentRatio a
  ∧ computable DebtToEquity a
  ∧ (∀ md, (ratio_blocks a).1.1 ≠ Return md)
  ∧ (calculate_financial_ratios a).2
    = [StError (lit "Error calculating financial ratios: division by zero")]
  ∧ ¬ has_entry DebtToEquity (calculate_financial_ratios a).1.2.
Proof.
  intros a. split_and!.
  - eexists. split; [reflexivity|]. left. vm_compute. reflexivity.
  - exists (1 # 1), (2 # 1). split; [|reflexivity].
    eexists. split_and!; [reflexivity | vm_compute; reflexivity..].
  - intros md H. vm_compute in H. discriminate.
  - vm_compute. reflexivity.
  - intros [q Hq]. vm_compute in Hq. discriminate.
Qed.

Lemma C3_witness :
  let a := Exact.fetched (lit "AAPL")
             (Exact.frame [(lit "Gross Profit", [170782000000 # 1]);
                           (lit "Total Revenue", [394328000000 # 1])])
             (Exact.frame [(lit "Total Current Liabilities", [153982000000 # 1]);
                           (lit "Total Liab", [302083000000 # 1]);
                           (lit "Total Stockholder Equity", [50672000000 # 1])]) in
  ∃ md a',
    ratio_blocks a = (Return md, a', [])
    ∧ calculate_financial_ratios a
      = (Return tt, a',
         if truthy md then
           [StWarning
              (lit "Unable to calculate the following ratios due to missing data: "
               ++ join (lit ", ") md)]
         else [])
    ∧ ∀ r,
        (row_missing r a → ¬ has_entry r a' ∧ occurrences (ratio_name r) md = 1%nat)
        ∧ (∀ x y, rows_present r a x y → Exact.zero y = false →
           ∃ q, Exact.divide x y = Return q
                ∧ dict_get (ratio_name r) (financial_ratios a') = Some q
                ∧ occurrences (ratio_name r) md = 0%nat).
Proof.
  intros a.
  apply (C3_missing_rows_are_isolated (RT := Exact.runtime)
           Exact_division_returns_on_nonzero a).
  - reflexivity.
  - intros r. destruct r; vm_compute; reflexivity.
Defined.

(** A zero Total Revenue: the division raises [ZeroDivisionError], and the
    calculator returns normally instead of raising. *)
Lemma C4_counterexample :
  let a := Exact.fetched (lit "AAPL")
             (Exact.frame [(lit "Gross Profit", [1 # 1]); (lit "Total Revenue", [0 # 1])])
             (Exact.frame []) in
  rows_present GrossMargin a (1 # 1) (0 # 1)
  ∧ Exact.divide (1 # 1) (0 # 1)
    = Raise (Exn ZeroDivisionError (lit "division by zero"))
  ∧ ¬ (∃ e, (calculate_financial_ratios a).1.1 = Raise e).
Proof.
  intros a. split_and!.
  - eexists. split_and!; [reflexivity | vm_compute; reflexivity..].
  - reflexivity.
  - intros [e He]. rewrite calculate_returns in He. discriminate.
Qed.

Lemma C4_witness :
  let a := Exact.fetched (lit "AAPL")
             (Exact.frame [(lit "Gross Profit", [1 # 1]); (lit "Total Revenue", [0 # 1])])
             (Exact.frame []) in
  let e := Exn ZeroDivisionError (lit "division by zero") in
  ∃ e' a',
    (ratio_blocks a).1.1 = Raise e'
    ∧ is_KeyError e' = false
    ∧ (reached GrossMargin a = true → e' = e)
    ∧ calculate_financial_ratios a
      = (Return tt, a',
         [StError (lit "Error calculating financial ratios: " ++ exn_str e')])
    ∧ ∀ r', r' = GrossMargin ∨ GrossMargin ∈ earlier r' →
            dict_get (ratio_name r') (financial_ratios a')
            = dict_get (ratio_name r') (financial_ratios a).
Proof.
  intros a e.
  apply (C4_division_error_reaches_outer_handler (RT := Exact.runtime) a
           GrossMargin (1 # 1) (0 # 1) e).
  - eexists. split_and!; [reflexivity | vm_compute; reflexivity..].
  - reflexivity.
  - reflexivity.
Defined.

(** ** Base64 *)

Section Arithmetic.
Local Open Scope N_scope.




Lemma div_lt (x k n : N) : 0 < k → x < k * n → x / k < n.
Proof. intros. by apply N.Div0.div_lt_upper_bound. Qed.
End Arithmetic.

Lemma Exact_decimal_digit (n : N) : (n < 10)%N → Exact.decimal n = [(48 + n)%N].
Proof.
  intros Hn.
  assert (Hall : forallb (λ n, bool_decide (Exact.decimal n = [(48 + n)%N]))
                   (N.of_nat <$> seq 0 10) = true) by (vm_compute; reflexivity).
  rewrite forallb_forall in Hall.
  eapply (proj1 (bool_decide_eq_true _)), Hall.
  apply list_elem_of_In, list_elem_of_fmap. exists (N.to_nat n).
  split; [lia|]. apply elem_of_seq. lia.
Qed.

(** The [.2f] format of the exact instance ends in a point and exactly two
    decimal digits. *)
Lemma Exact_two_decimals_shape (q : Q) :
  ∃ (front : str) (d1 d2 : N),
    Exact.two_decimals q = front ++ lit "." ++ [d1; d2]
    ∧ (48 ≤ d1 ≤ 57)%N ∧ (48 ≤ d2 ≤ 57)%N.
Proof.
  unfold Exact.two_decimals.
  set (h := Exact.round_half_even _ _). clearbody h.
  assert (H1 : (h mod 100 / 10 < 10)%N).
  { apply div_lt; [lia|]. apply N.mod_lt. lia. }
  assert (H2 : (h mod 10 < 10)%N) by (apply N.mod_lt; lia).
  rewrite (Exact_decimal_digit _ H1), (Exact_decimal_digit _ H2).
  revert H1 H2. generalize (h mod 100 / 10)%N (h mod 10)%N. intros d1 d2 H1 H2.
  exists ((if (Qnum q <? 0)%Z then lit "-" else []) ++ Exact.decimal (h / 100)),
    (48 + d1)%N, (48 + d2)%N.
  split; [|lia]. rewrite <- app_assoc. reflexivity.
Qed.


Module Base64Facts.
Import Base64.







End Base64Facts.

(** ** UTF-8 *)

Module Utf8Facts.
Import Utf8.



Lemma encode_char_scalar (c : N) : scalar c → is_Some (encode_char c).
Proof.
  intros [Hlt Hsur]. unfold encode_char. rewrite Hsur.
  apply N.ltb_lt in Hlt. rewrite Hlt. repeat case_match; eauto.
Qed.

(** Text without a lone surrogate has an encoding. *)
Lemma encode_chars_scalar (s : str) : Forall scalar s → is_Some (encode_chars s).
Proof.
  induction 1 as [|c s Hc _ IH]; simpl; [eauto|].
  destruct (encode_char_scalar c Hc) as [b1 ->]. destruct IH as [b2 ->]. eauto.
Qed.
End Utf8Facts.

(** ** The download link *)




(** ** [strip] *)






(** ** The report generators *)

(** Unfold a procedure down to the pairs it computes. *)
Ltac run_monad :=
  cbv beta iota zeta delta
    [create try_except Exception mbind Py_bind py_bind mret Py_ret py_ret
     emit gets modify lift call id].

Section Generators.
Context `{RT : Runtime} (W : World).
Implicit Types (a : FinancialAnalyzer).

Lemma generate_financial_report_run a :
  generate_financial_report W a
  = if truthy (financial_ratios a) then
      (Return (completion W (ratio_request (ticker a) (financial_ratios a))).1, a,
       Enter (lit "generate_financial_report")
       :: (completion W (ratio_request (ticker a) (financial_ratios a))).2)
    else
      (Return None, a,
       [Enter (lit "generate_financial_report");
        StError (lit "No financial ratios available to generate the report.")]).
Proof.
  unfold completion, generate_financial_report. run_monad.
  destruct (truthy (financial_ratios a)); [|reflexivity].
  cbn [negb]. cbv beta iota.
  destruct (chat_completions_create W _) as [choices|e]; [|reflexivity].
  rewrite result_bind_Return. by destruct (first_content_stripped choices).
Qed.

Lemma generate_report_with_available_data_run a :
  generate_report_with_available_data W a tt
  = (Return (completion W (fallback_request (ticker a))).1, tt,
     Enter (lit "generate_report_with_available_data")
     :: (completion W (fallback_request (ticker a))).2).
Proof.
  unfold completion, generate_report_with_available_data. run_monad.
  destruct (chat_completions_create W _) as [choices|e]; [|reflexivity].
  rewrite result_bind_Return. by destruct (first_content_stripped choices).
Qed.
End Generators.

(** ** The page *)

Section Page.
Context `{RT : Runtime} (W : World).
Implicit Types (a : FinancialAnalyzer).

Lemma fetch_run a :
  fetch_financial_statements W a
  = let failed e := StError (lit "Error fetching financial statements: " ++ exn_str e) in
    match yf_financials W (stock a) with
    | Raise e => (Return false, a, [YfFinancials (stock a); failed e])
    | Return f =>
        match yf_balance_sheet W (stock a) with
        | Raise e =>
            (Return false, set_income_stmt f a,
             [YfFinancials (stock a); YfBalanceSheet (stock a); failed e])
        | Return b =>
            match yf_cashflow W (stock a) with
            | Raise e =>
                (Return false, set_balance_sheet b (set_income_stmt f a),
                 [YfFinancials (stock a); YfBalanceSheet (stock a);
                  YfCashflow (stock a); failed e])
            | Return c =>
                (Return true,
                 set_cash_flow c (set_balance_sheet b (set_income_stmt f a)),
                 [YfFinancials (stock a); YfBalanceSheet (stock a);
                  YfCashflow (stock a)])
            end
        end
    end.
Proof.
  unfold fetch_financial_statements. run_monad.
  destruct (yf_financials W (stock a)); [|reflexivity].
  destruct (yf_balance_sheet W (stock a)); [|reflexivity].
  by destruct (yf_cashflow W (stock a)).
Qed.

(** [main], with the calls to the methods and generators left as they are
    and everything around them run. *)
Lemma main_run (text_input : str) (checkbox : bool) :
  main W text_input checkbox tt
  = let symbol := upper text_input in
    if truthy symbol then
      match yf_ticker W symbol with
      | Raise e => (Raise e, tt, page_head ++ analysis_head symbol)
      | Return _ =>
      match fetch_financial_statements W (blank symbol) with
      | (Return true, a1, ev1) =>
          match calculate_financial_ratios a1 with
          | (Return _, a2, ev2) =>
              if truthy (financial_ratios a2) then
                match generate_financial_report W a2 with
                | (Return (Some (c :: rest)), _, ev3) =>
                    match get_text_download_link (c :: rest)
                            (symbol ++ lit "_financial_report.txt") with
                    | Return href =>
                        (Return tt, tt,
                         page_head ++ analysis_head symbol ++ ev1 ++ ev2
                         ++ ratios_shown a2 checkbox ++ ev3
                         ++ report_shown (c :: rest) ++ [StMarkdown href])
                    | Raise e =>
                        (Raise e, tt,
                         page_head ++ analysis_head symbol ++ ev1 ++ ev2
                         ++ ratios_shown a2 checkbox ++ ev3
                         ++ report_shown (c :: rest))
                    end
                | (Return _, _, ev3) =>
                    (Return tt, tt,
                     page_head ++ analysis_head symbol ++ ev1 ++ ev2
                     ++ ratios_shown a2 checkbox ++ ev3
                     ++ [StError (lit "Failed to generate financial report.")])
                | (Raise e, _, ev3) =>
                    (Raise e, tt,
                     page_head ++ analysis_head symbol ++ ev1 ++ ev2
                     ++ ratios_shown a2 checkbox ++ ev3)
                end
              else
                match generate_report_with_available_data W a2 tt with
                | (Return (Some (c :: rest)), _, ev3) =>
                    (Return tt, tt,
                     page_head ++ analysis_head symbol ++ ev1 ++ ev2
                     ++ fallback_announced ++ ev3 ++ report_shown (c :: rest))
                | (Return _, _, ev3) =>
                    (Return tt, tt,
                     page_head ++ analysis_head symbol ++ ev1 ++ ev2
                     ++ fallback_announced ++ ev3
                     ++ [StError (lit "Unable to generate report due to insufficient data.")])
                | (Raise e, _, ev3) =>
                    (Raise e, tt,
                     page_head ++ analysis_head symbol ++ ev1 ++ ev2
                     ++ fallback_announced ++ ev3)
                end
          | (Raise e, _, ev2) =>
              (Raise e, tt, page_head ++ analysis_head symbol ++ ev1 ++ ev2)
          end
      | (Return false, _, ev1) =>
          (Return tt, tt,
           page_head ++ analysis_head symbol ++ ev1
           ++ [StError (lit "Failed to fetch data. Please check the ticker symbol and try again.")])
      | (Raise e, _, ev1) =>
          (Raise e, tt, page_head ++ analysis_head symbol ++ ev1)
      end
      end
    else (Return tt, tt, page_head).
Proof.
  cbv zeta. unfold main, init. run_monad.
  destruct (truthy (upper text_input)); [|reflexivity].
  unfold page_head, analysis_head, ratios_shown, report_shown, fallback_announced.
  destruct (yf_ticker W (upper text_input)) as [[]|e0]; [|reflexivity].
  destruct (fetch_financial_statements W (blank (upper text_input)))
    as [[[[]|e] a1] ev1]; [|reflexivity..].
  destruct (calculate_financial_ratios a1) as [[[[]|e] a2] ev2]; [|reflexivity].
  destruct (truthy (financial_ratios a2)).
  - destruct checkbox.
    + destruct (generate_financial_report W a2) as [[[[[|c rest]|]|e] a3] ev3];
        try (cbn [app]; by rewrite <- ?app_assoc).
      destruct (get_text_download_link _ _); cbn [app]; by rewrite <- ?app_assoc.
    + destruct (generate_financial_report W a2) as [[[[[|c rest]|]|e] a3] ev3];
        try (cbn [app]; by rewrite <- ?app_assoc).
      destruct (get_text_download_link _ _); cbn [app]; by rewrite <- ?app_assoc.
  - destruct (generate_report_with_available_data W a2 tt)
      as [[[[[|c rest]|]|e] []] ev3]; cbn [app]; by rewrite <- ?app_assoc.
Qed.
End Page.

(** ** What each procedure emits *)

Section Events.
Context `{RT : Runtime} (W : World).
Implicit Types (a : FinancialAnalyzer) (ev : event) (fn : str).

Lemma entries_app fn (l k : list event) : entries fn (l ++ k) = (entries fn l + entries fn k)%nat.
Proof. unfold entries. by rewrite filter_app, length_app. Qed.

Lemma entries_cons fn ev (l : list event) :
  entries fn (ev :: l) = ((if enters fn ev then 1 else 0) + entries fn l)%nat.
Proof.
  unfold entries. rewrite filter_cons. destruct (enters fn ev); by case_decide.
Qed.

Lemma entries_quiet fn (l : list event) :
  Forall (λ ev, enters fn ev = false) l → entries fn l = 0%nat.
Proof.
  induction 1 as [|ev l Hev _ IH]; [done|]. by rewrite entries_cons, Hev, IH.
Qed.

Lemma requests_app (l k : list event) : requests (l ++ k) = requests l ++ requests k.
Proof. unfold requests. by rewrite bind_app. Qed.

Lemma requests_quiet (l : list event) :
  Forall (λ ev, match ev with ChatCompletionsCreate _ => False | _ => True end) l →
  requests l = [].
Proof.
  induction 1 as [|ev l Hev _ IH]; [done|].
  unfold requests in *. rewrite bind_cons, IH. by destruct ev.
Qed.

Lemma fetch_events a : Forall (fetch_event (stock a)) (fetch_financial_statements W a).2.
Proof.
  rewrite fetch_run. cbv zeta.
  destruct (yf_financials W (stock a)); [|by repeat constructor].
  destruct (yf_balance_sheet W (stock a)); [|by repeat constructor].
  destruct (yf_cashflow W (stock a)); by repeat constructor.
Qed.

Lemma fetch_first a :
  ∃ rest, (fetch_financial_statements W a).2 = YfFinancials (stock a) :: rest.
Proof.
  rewrite fetch_run. cbv zeta.
  destruct (yf_financials W (stock a)); [|by eexists].
  destruct (yf_balance_sheet W (stock a)); [|by eexists].
  destruct (yf_cashflow W (stock a)); by eexists.
Qed.

Lemma fetch_keeps a :
  ticker (fetch_financial_statements W a).1.2 = ticker a
  ∧ financial_ratios (fetch_financial_statements W a).1.2 = financial_ratios a.
Proof.
  rewrite fetch_run. cbv zeta.
  destruct (yf_financials W (stock a)); [|done].
  destruct (yf_balance_sheet W (stock a)); [|done].
  by destruct (yf_cashflow W (stock a)).
Qed.

Lemma calculate_events a : Forall calculate_event (calculate_financial_ratios a).2.
Proof.
  rewrite calculate_run. pose proof (ratio_blocks_silent a) as Hsilent.
  destruct (ratio_blocks a) as [[[md|e] a'] out]; simpl in *; subst out.
  - destruct (truthy md); by repeat constructor.
  - by repeat constructor.
Qed.

Lemma completion_events r : Forall (completion_event r) (completion W r).2.
Proof.
  unfold completion.
  destruct (result_bind (chat_completions_create W r) first_content_stripped);
    by repeat constructor.
Qed.

Lemma completion_requests r : requests (completion W r).2 = [r].
Proof.
  unfold completion.
  by destruct (result_bind (chat_completions_create W r) first_content_stripped).
Qed.

Lemma completion_sent r : ChatCompletionsCreate r ∈ (completion W r).2.
Proof.
  unfold completion.
  destruct (result_bind (chat_completions_create W r) first_content_stripped);
    simpl; set_solver.
Qed.

(** A generator returns a report exactly when the first choice of the answer
    has a content, and the report is that content stripped. *)
Lemma completion_report r report :
  (completion W r).1 = Some report
  ↔ ∃ content more,
      chat_completions_create W r = Return (Some content :: more)
      ∧ report = strip content.
Proof.
  unfold completion.
  destruct (chat_completions_create W r) as [[|[content|] more]|e]; simpl.
  - split; [done | by intros (? & ? & ? & ?)].
  - split; [intros [= <-]; eauto | by intros (? & ? & [= <- <-] & ->)].
  - split; [done | by intros (? & ? & ? & ?)].
  - split; [done | by intros (? & ? & ? & ?)].
Qed.
End Events.

(** ** The trace of the page *)

Section PageTrace.
Context `{RT : Runtime} (W : World).
Implicit Types (a : FinancialAnalyzer) (ev : event).

Lemma calculate_keeps_ticker a : ticker (calculate_financial_ratios a).1.2 = ticker a.
Proof. apply calculate_keeps. Qed.

Lemma main_trace (text_input : str) (checkbox : bool) :
  (main W text_input checkbox tt).2 = page_trace W text_input checkbox.
Proof.
  rewrite main_run. unfold page_trace. cbv zeta.
  destruct (truthy (upper text_input)); [|reflexivity].
  destruct (yf_ticker W (upper text_input)) as [[]|e0]; [|reflexivity].
  pose proof (fetch_keeps W (blank (upper text_input))) as [Hticker _].
  destruct (fetch_financial_statements W (blank (upper text_input)))
    as [[[[]|e] a1] ev1]; cbn [fst snd] in *; [| |by rewrite app_nil_r].
  2: reflexivity.
  pose proof (calculate_returns a1) as Hret.
  pose proof (calculate_keeps_ticker a1) as Hticker'.
  destruct (calculate_financial_ratios a1) as [[[[]|e] a2] ev2]; cbn [fst snd] in *;
    [|done].
  unfold report_trace. rewrite Hticker', Hticker. cbn [blank ticker].
  destruct (truthy (financial_ratios a2)) eqn:Hany.
  - rewrite generate_financial_report_run, Hany.
    rewrite Hticker', Hticker. cbn [blank ticker].
    destruct (completion W _) as [[[|c rest]|] evc]; cbn [fst snd ratio_outcome];
      try reflexivity.
    destruct (get_text_download_link _ _); cbn [snd]; [reflexivity|].
    by rewrite app_nil_r.
  - rewrite generate_report_with_available_data_run.
    rewrite Hticker', Hticker. cbn [blank ticker].
    by destruct (completion W _) as [[[|c rest]|] evc].
Qed.

End PageTrace.

Section PageEvents.
Context `{RT : Runtime} (W : World).
Implicit Types (a : FinancialAnalyzer) (ev : event) (trace : list event).

Lemma silent_entries fn trace : Forall silent trace → entries fn trace = 0%nat.
Proof.
  intros H. apply entries_quiet. eapply Forall_impl; [exact H|]. by intros [].
Qed.

Lemma silent_requests trace : Forall silent trace → requests trace = [].
Proof.
  intros H. apply requests_quiet. eapply Forall_impl; [exact H|]. by intros [].
Qed.

Lemma fetch_silent a : Forall silent (fetch_financial_statements W a).2.
Proof. eapply Forall_impl; [apply fetch_events|]. by intros []. Qed.

Lemma calculate_silent a : Forall silent (calculate_financial_ratios a).2.
Proof. eapply Forall_impl; [apply calculate_events|]. by intros []. Qed.

Lemma completion_entries fn r : entries fn (completion W r).2 = 0%nat.
Proof.
  apply entries_quiet. eapply Forall_impl; [apply completion_events|]. by intros [].
Qed.

Lemma ratios_shown_silent a checkbox : Forall silent (ratios_shown a checkbox).
Proof. destruct checkbox; by repeat constructor. Qed.

Lemma ratio_outcome_silent symbol report : Forall silent (ratio_outcome symbol report).
Proof.
  destruct report as [[|c rest]|]; simpl; try by repeat constructor.
  destruct (get_text_download_link _ _); by repeat constructor.
Qed.

Lemma fallback_outcome_silent report : Forall silent (fallback_outcome report).
Proof. destruct report as [[|c rest]|]; by repeat constructor. Qed.

(** The report step enters exactly one generator and sends exactly one
    request, chosen by whether there is a ratio. *)
Lemma report_trace_counts a checkbox :
  let trace := report_trace W a checkbox in
  if truthy (financial_ratios a) then
    entries ratio_grounded trace = 1%nat ∧ entries fallback trace = 0%nat
    ∧ requests trace = [ratio_request (ticker a) (financial_ratios a)]
  else
    entries fallback trace = 1%nat ∧ entries ratio_grounded trace = 0%nat
    ∧ requests trace = [fallback_request (ticker a)].
Proof.
  unfold report_trace. destruct (truthy (financial_ratios a)); cbv zeta.
  - rewrite !entries_app, !entries_cons, !entries_app, !completion_entries.
    rewrite !(silent_entries _ _ (ratios_shown_silent _ _)).
    rewrite !(silent_entries _ _ (ratio_outcome_silent _ _)).
    rewrite requests_app, (silent_requests _ (ratios_shown_silent _ _)).
    change (requests (?ev :: ?l ++ ?k)) with (requests ([ev] ++ l ++ k)).
    rewrite !requests_app, completion_requests.
    rewrite (silent_requests _ (ratio_outcome_silent _ _)).
    split_and!; by vm_compute.
  - rewrite !entries_app, !entries_cons, !entries_app, !completion_entries.
    rewrite !(silent_entries _ _ (fallback_outcome_silent _)).
    rewrite requests_app.
    change (requests (?ev :: ?l ++ ?k)) with (requests ([ev] ++ l ++ k)).
    rewrite !requests_app, completion_requests.
    rewrite (silent_requests _ (fallback_outcome_silent _)).
    split_and!; by vm_compute.
Qed.
End PageEvents.

(** ** What the specification says about the page *)

(** Membership in a trace written as a concatenation. *)
Ltac in_trace :=
  repeat first [rewrite elem_of_app | rewrite elem_of_cons]; auto 12.

(** Drop from the counts a part of the trace known to be silent. *)
Ltac drop_silent H :=
  rewrite ?(silent_entries ratio_grounded _ H), ?(silent_entries fallback _ H),
    ?(silent_requests _ H).

Section PageClaims.
Context `{RT : Runtime} (W : World).
Implicit Types (a : FinancialAnalyzer) (ev : event) (trace : list event).

Lemma page_head_silent : Forall silent page_head.
Proof. by repeat constructor. Qed.

Lemma analysis_head_silent symbol : Forall silent (analysis_head symbol).
Proof. by repeat constructor. Qed.

Lemma page_event_mono symbol trace trace' ev :
  (∀ x, x ∈ trace → x ∈ trace') →
  page_event W symbol trace ev → page_event W symbol trace' ev.
Proof.
  intros Hsub. destruct ev as [| | | | | | | | | | |[]| | | | | | |]; simpl; try done.
  - intros (r & content & more & Hin & Hr & ->). eauto 10.
  - intros (report & Hin & Hlink). eauto.
Qed.

Lemma report_trace_events a checkbox :
  Forall (page_event W (ticker a) (report_trace W a checkbox)) (report_trace W a checkbox).
Proof.
  unfold report_trace. destruct (truthy (financial_ratios a)).
  - set (r := ratio_request (ticker a) (financial_ratios a)).
    pose proof (completion_events W r) as Hshape.
    pose proof (completion_sent W r) as Hsent.
    pose proof (completion_report W r) as Hrep.
    destruct (completion W r) as [report evc]. cbn [fst snd] in *.
    set (trace := _ ++ _).
    apply Forall_app. split; [destruct checkbox; by repeat constructor|].
    apply Forall_cons_2; [done|]. apply Forall_app. split.
    { eapply Forall_impl; [exact Hshape|]. intros [] Hev; try done.
      simpl in *. subst. right. by eexists. }
    destruct report as [[|c rest]|]; try by repeat constructor.
    assert (Hshown : StWrite (WText (c :: rest)) ∈ trace).
    { unfold trace, ratio_outcome, report_shown. in_trace. }
    cbn [ratio_outcome]. apply Forall_app. split.
    + apply Forall_cons_2; [done|]. apply Forall_cons_2; [|constructor].
      destruct (proj1 (Hrep _) eq_refl) as (content & more & Hanswer & Hstrip).
      exists r, content, more. split_and!; try done.
      unfold trace. in_trace.
    + destruct (get_text_download_link _ _) as [href|] eqn:Hlink; [|constructor].
      apply Forall_cons_2; [|constructor]. exists (c :: rest). done.
  - set (r := fallback_request (ticker a)).
    pose proof (completion_events W r) as Hshape.
    pose proof (completion_sent W r) as Hsent.
    pose proof (completion_report W r) as Hrep.
    destruct (completion W r) as [report evc]. cbn [fst snd] in *.
    set (trace := _ ++ _).
    apply Forall_app. split; [by repeat constructor|].
    apply Forall_cons_2; [done|]. apply Forall_app. split.
    { eapply Forall_impl; [exact Hshape|]. intros [] Hev; try done.
      simpl in *. subst. by left. }
    destruct report as [[|c rest]|]; try by repeat constructor.
    cbn [fallback_outcome]. apply Forall_cons_2; [done|].
    apply Forall_cons_2; [|constructor].
    destruct (proj1 (Hrep _) eq_refl) as (content & more & Hanswer & Hstrip).
    exists r, content, more. split_and!; try done.
    unfold trace. in_trace.
Qed.

(** Every event of a run of [main] is tied to the upper-cased ticker, and
    every report shown or linked comes stripped from the completion API. *)
Lemma main_events (text_input : str) (checkbox : bool) :
  let trace := (main W text_input checkbox tt).2 in
  Forall (page_event W (upper text_input) trace) trace.
Proof.
  cbv zeta. rewrite main_trace. unfold page_trace. cbv zeta.
  destruct (truthy (upper text_input)); [|by repeat constructor].
  destruct (yf_ticker W (upper text_input)) as [[]|e0]; [|by repeat constructor].
  pose proof (fetch_events W (blank (upper text_input))) as Hev1.
  pose proof (fetch_keeps W (blank (upper text_input))) as [Hkeep _].
  cbn [blank stock ticker] in Hev1, Hkeep.
  set (trace := _ ++ _).
  apply Forall_app. split; [by repeat constructor|].
  apply Forall_app. split; [by repeat constructor|].
  apply Forall_app. split.
  { eapply Forall_impl; [exact Hev1|]. by intros []. }
  destruct (fetch_financial_statements W (blank (upper text_input)))
    as [[[[]|e] a1] ev1]; cbn [fst snd] in *; try by repeat constructor.
  apply Forall_app. split.
  { eapply Forall_impl; [apply calculate_events|]. by intros []. }
  pose proof (report_trace_events (calculate_financial_ratios a1).1.2 checkbox) as Hrep.
  rewrite calculate_keeps_ticker, Hkeep in Hrep.
  eapply Forall_impl; [exact Hrep|]. intros ev. apply page_event_mono.
  intros x Hx. unfold trace. in_trace.
Qed.

(** C5. No run of [main] enters both report generators, and none enters one
    twice. On a run with a non-empty ticker whose fetch succeeds: if the
    calculator leaves no ratio, the fallback generator is entered exactly
    once, the ratio-grounded one never, and the only request sent is the
    fallback request; if it leaves at least one ratio, the ratio-grounded
    generator is entered exactly once, the fallback one never, and the only
    request sent is the one built from the ratios. *)
Theorem C5_exactly_one_generator (text_input : str) (checkbox : bool) :
  let trace := (main W text_input checkbox tt).2 in
  (entries ratio_grounded trace + entries fallback trace ≤ 1)%nat
  ∧ ∀ a,
      truthy (upper text_input) = true →
      analyzed W (upper text_input) = Some a →
      (financial_ratios a = [] →
       entries fallback trace = 1%nat ∧ entries ratio_grounded trace = 0%nat
       ∧ requests trace = [fallback_request (upper text_input)])
      ∧ (financial_ratios a ≠ [] →
         entries ratio_grounded trace = 1%nat ∧ entries fallback trace = 0%nat
         ∧ requests trace
           = [ratio_request (upper text_input) (financial_ratios a)]).
Proof.
  cbv zeta. rewrite main_trace. unfold page_trace, analyzed, init. cbv zeta.
  run_monad.
  destruct (truthy (upper text_input)) eqn:Hticker.
  2:{ split; [vm_compute; lia|]. intros a Habs. done. }
  destruct (yf_ticker W (upper text_input)) as [[]|e0].
  2:{ split; [|by intros a _ [=]].
      rewrite !entries_app.
      drop_silent page_head_silent. drop_silent (analysis_head_silent (upper text_input)).
      lia. }
  pose proof (fetch_silent W (blank (upper text_input))) as Hev1.
  pose proof (fetch_keeps W (blank (upper text_input))) as [Hkeep _].
  destruct (fetch_financial_statements W (blank (upper text_input)))
    as [[[[]|e] a1] ev1]; cbn [fst snd] in *.
  - pose proof (calculate_silent a1) as Hev2.
    pose proof (calculate_keeps_ticker a1) as Hkeep'.
    pose proof (report_trace_counts W (calculate_financial_ratios a1).1.2 checkbox) as Hrep.
    cbv zeta in Hrep. rewrite Hkeep', Hkeep in Hrep. cbn [blank ticker] in Hrep.
    rewrite !entries_app, !requests_app.
    drop_silent page_head_silent. drop_silent (analysis_head_silent (upper text_input)).
    drop_silent Hev1. drop_silent Hev2.
    cbn [app Nat.add].
    split.
    + destruct (truthy (financial_ratios _)); destruct Hrep as (-> & -> & _); lia.
    + intros a _ [= <-]. split.
      * intros Hnone. rewrite Hnone in Hrep. by cbn [truthy] in Hrep.
      * intros Hsome. destruct (financial_ratios _) as [|entry ratios]; [done|].
        by cbn [truthy] in Hrep.
  - split; [|by intros a _ [=]].
    rewrite !entries_app.
    drop_silent page_head_silent. drop_silent (analysis_head_silent (upper text_input)). drop_silent Hev1.
    vm_compute; lia.
  - split; [|by intros a _ [=]].
    rewrite !entries_app.
    drop_silent page_head_silent. drop_silent (analysis_head_silent (upper text_input)). drop_silent Hev1.
    vm_compute; lia.
Qed.

(** C8. When the ticker field holds the empty string, [main] returns after
    the title, the sidebar header and the ticker field: there is no provider
    event (no analyzer is constructed, nothing is fetched), no error message,
    no generator is entered and no request is sent. *)
Theorem C8_empty_ticker_stays_idle (checkbox : bool) :
  main W [] checkbox tt
  = (Return tt, tt,
     [StTitle (lit "AI-Powered Financial Statement Analyzer and Report Generator");
      StSidebarHeader (lit "User Input");
      StSidebarTextInput (lit "Stock Ticker Symbol") (lit "AAPL")])
  ∧ Forall (λ ev, symbol_of ev = None ∧ is_error ev = false ∧ silent ev)
      (main W [] checkbox tt).2.
Proof.
  rewrite main_run. cbv zeta. change (truthy (upper [])) with false. cbv iota.
  split; [reflexivity|]. by repeat constructor.
Qed.

(** C9. Whatever the ticker field holds, every use of the ticker in a run
    of [main] is a use of its upper-cased form: the sidebar line, the
    constructed provider handle and each statement fetched carry it, each
    request to the completion API is built from it, and the link shown is the
    download link of the displayed report under the file name made from it.
    When the upper-cased form is not empty, the analyzer is constructed with
    it and, once the provider handle is made, the fetch starts with it. *)
Theorem C9_ticker_is_uppercased_before_use (text_input : str) (checkbox : bool) :
  let symbol := upper text_input in
  let trace := (main W text_input checkbox tt).2 in
  (∀ ev s, ev ∈ trace → symbol_of ev = Some s → s = symbol)
  ∧ (∀ m, StSidebarWrite m ∈ trace → m = lit "Analyzing: " ++ symbol)
  ∧ (∀ r, ChatCompletionsCreate r ∈ trace →
          r = fallback_request symbol ∨ ∃ ratios, r = ratio_request symbol ratios)
  ∧ (∀ href, StMarkdown href ∈ trace →
             ∃ report,
               StWrite (WText report) ∈ trace
               ∧ get_text_download_link report (symbol ++ lit "_financial_report.txt")
                 = Return href)
  ∧ (truthy symbol = true →
     ∃ before after,
       trace = before ++ YfTicker symbol :: after
       ∧ (yf_ticker W symbol = Return tt →
          ∃ rest, after = YfFinancials symbol :: rest)).
Proof.
  cbv zeta. pose proof (main_events text_input checkbox) as Hall. cbv zeta in Hall.
  rewrite Forall_forall in Hall. split_and!.
  - intros ev s Hin Hs. specialize (Hall ev Hin).
    destruct ev; simpl in *; congruence.
  - intros m Hin. exact (Hall _ Hin).
  - intros r Hin. exact (Hall _ Hin).
  - intros href Hin. exact (Hall _ Hin).
  - intros Hticker. rewrite main_trace. unfold page_trace. cbv zeta. rewrite Hticker.
    exists (page_head ++ [StSidebarWrite (lit "Analyzing: " ++ upper text_input);
                          StSpinner (lit "Fetching data...")]).
    destruct (yf_ticker W (upper text_input)) as [[]|e0].
    + destruct (fetch_first W (blank (upper text_input))) as [rest ->].
      eexists. split.
      * unfold analysis_head. cbn [blank stock]. rewrite <- !app_assoc. reflexivity.
      * intros _. by eexists.
    + exists []. split; [|done].
      unfold analysis_head. rewrite <- !app_assoc. reflexivity.
Qed.



Lemma ratios_text_from (ratios : list (str * value)) (text : str) :
  foldl (λ ratios_text entry,
           ratios_text ++ (entry.1 ++ lit ": " ++ format_2f entry.2 ++ LF))
        text ratios
  = text ++ ratios_text_of ratios.
Proof.
  unfold ratios_text_of. revert text.
  induction ratios as [|entry ratios IH]; intros text; simpl.
  - by rewrite app_nil_r.
  - rewrite IH, (IH (_ ++ _)). by rewrite <- !app_assoc.
Qed.

(** The text of the ratios holds the line of every entry. *)
Lemma ratios_text_contains (ratios : list (str * value)) name v :
  (name, v) ∈ ratios →
  contains (name ++ lit ": " ++ format_2f v ++ LF) (ratios_text_of ratios).
Proof.
  intros (before & after & ->)%list_elem_of_split.
  unfold ratios_text_of. rewrite foldl_app. cbn [foldl fst snd].
  rewrite ratios_text_from. fold (ratios_text_of before).
  exists (ratios_text_of before), (ratios_text_of after).
  by rewrite <- !app_assoc.
Qed.

Lemma contains_within (needle hay before after : str) :
  contains needle hay → contains needle (before ++ hay ++ after).
Proof.
  intros (l & r & ->). exists (before ++ l), (r ++ after).
  by rewrite <- !app_assoc.
Qed.

(** C7. With at least one ratio, [generate_financial_report] sends exactly
    one request: model [gpt-3.5-turbo], at most 500 tokens, temperature 0.7,
    the analyst system message and a user prompt that holds, for every entry
    of [financial_ratios], its name, a colon and a space, its value in the
    [.2f] format and a line feed. [generate_report_with_available_data] sends
    exactly one request: model [gpt-4o], at most 2048 tokens, temperature 1.0,
    the same system message and a user prompt that is the fixed text around
    the ticker, so that the request depends on nothing but the ticker. *)
Theorem C7_requests_of_the_two_modes a :
  (financial_ratios a ≠ [] →
   requests (generate_financial_report W a).2
   = [ratio_request (ticker a) (financial_ratios a)])
  ∧ (let r := ratio_request (ticker a) (financial_ratios a) in
     model r = lit "gpt-3.5-turbo" ∧ max_tokens r = 500 ∧ temperature r = 7 # 10
     ∧ ∃ prompt,
         messages r = [(lit "system", lit "You are a financial analyst.");
                       (lit "user", prompt)]
         ∧ contains (ticker a) prompt
         ∧ ∀ name v, (name, v) ∈ financial_ratios a →
                     contains (name ++ lit ": " ++ format_2f v ++ LF) prompt)
  ∧ requests (generate_report_with_available_data W a tt).2
    = [fallback_request (ticker a)]
  ∧ (let r := fallback_request (ticker a) in
     model r = lit "gpt-4o" ∧ max_tokens r = 2048 ∧ temperature r = 1 # 1
     ∧ messages r
       = [(lit "system", lit "You are a financial analyst.");
          (lit "user",
           LF ++ indent8 ++ lit "Provide a detailed analysis of " ++ ticker a
           ++ lit "'s financial health based on the available financial statements."
           ++ LF ++ LF ++ indent8
           ++ lit "Discuss the company's performance, financial stability, and any notable trends or observations."
           ++ LF ++ indent8)])
  ∧ (∀ a', ticker a' = ticker a →
           requests (generate_report_with_available_data W a' tt).2
           = requests (generate_report_with_available_data W a tt).2).
Proof.
  assert (Hfallback : ∀ b, requests (generate_report_with_available_data W b tt).2
                           = [fallback_request (ticker b)]).
  { intros b. rewrite generate_report_with_available_data_run. cbn [snd].
    change (requests (?ev :: ?l)) with (requests ([ev] ++ l)).
    by rewrite requests_app, completion_requests. }
  split_and!.
  - intros Hany. rewrite generate_financial_report_run.
    destruct (financial_ratios a) as [|entry ratios] eqn:Hratios; [done|].
    cbn [truthy snd].
    change (requests (?ev :: ?l)) with (requests ([ev] ++ l)).
    by rewrite requests_app, completion_requests.
  - cbv zeta. split_and!; try reflexivity.
    eexists. split; [reflexivity|]. split.
    + unfold ratio_prompt. eexists _, _.
      rewrite (app_assoc LF), (app_assoc (LF ++ indent12)). reflexivity.
    + intros name v Hin. unfold ratio_prompt.
      rewrite !(app_assoc _ _ (ratios_text_of _ ++ _)).
      apply contains_within. by apply ratios_text_contains.
  - apply Hfallback.
  - cbv zeta. by split_and!.
  - intros a' Hsame. by rewrite !Hfallback, Hsame.
Qed.
End PageClaims.

(** ** The page on concrete inputs *)

Lemma C5_witness :
  let a := (calculate_financial_ratios
              (Exact.fetched (lit "AAPL") Exact.income Exact.balance)).1.2 in
  let trace := (main Exact.world (lit "aapl") false tt).2 in
  entries ratio_grounded trace = 1%nat
  ∧ entries fallback trace = 0%nat
  ∧ requests trace = [ratio_request (lit "AAPL") (financial_ratios a)].
Proof.
  intros a trace.
  pose proof (C5_exactly_one_generator (RT := Exact.runtime) Exact.world
                (lit "aapl") false) as [_ Hrun].
  apply (Hrun a).
  - reflexivity.
  - reflexivity.
  - discriminate.
Defined.


Lemma C7_witness :
  let a := {| ticker := lit "AAPL"; stock := lit "AAPL";
              income_stmt := Some Exact.income; balance_sheet := Some Exact.balance;
              cash_flow := Some ∅;
              financial_ratios := [(lit "Gross Margin", 170782 # 394328);
                                   (lit "Current Ratio", 135405 # 153982)] |} in
  requests (generate_financial_report Exact.world a).2
  = [ratio_request (lit "AAPL") (financial_ratios a)]
  ∧ ∃ prompt,
      messages (ratio_request (lit "AAPL") (financial_ratios a))
      = [(lit "system", lit "You are a financial analyst."); (lit "user", prompt)]
      ∧ contains (lit "Gross Margin: 0.43" ++ LF) prompt
      ∧ contains (lit "Current Ratio: 0.88" ++ LF) prompt.
Proof.
  intros a.
  destruct (C7_requests_of_the_two_modes (RT := Exact.runtime) Exact.world a)
    as (Hsent & (_ & _ & _ & prompt & Hmessages & _ & Hlines) & _).
  split; [apply Hsent; discriminate|].
  exists prompt. split; [exact Hmessages|]. split.
  - apply (Hlines (lit "Gross Margin") (170782 # 394328)). apply list_elem_of_here.
  - apply (Hlines (lit "Current Ratio") (135405 # 153982)).
    apply list_elem_of_further, list_elem_of_here.
Defined.

Lemma C9_witness :
  ∃ before after,
    (main Exact.world (lit "aapl") false tt).2
    = before ++ YfTicker (lit "AAPL") :: YfFinancials (lit "AAPL") :: after.
Proof.
  destruct (C9_ticker_is_uppercased_before_use (RT := Exact.runtime) Exact.world
              (lit "aapl") false) as (_ & _ & _ & _ & Hstart).
  destruct (Hstart eq_refl) as (before & after & Htrace & Hfetch).
  destruct (Hfetch eq_refl) as (rest & ->).
  by exists before, rest.
Defined.


(** * Further properties of the code *)

(** ** The calculator in closed form *)

Section ClosedForm.
Context `{RT : Runtime}.
Implicit Types (a b : FinancialAnalyzer) (r : ratio).

Lemma ratio_blocks_closed a :
  ratio_blocks a = (verdict a, apply_stores (kept a) a, []).
Proof.
  unfold verdict, first_error, kept, apply_stores, all_ratios, recorded, reached.
  blocks_cases a.
  all: rewrite ?filter_cons, ?filter_nil;
    cbn [omap list_omap earlier forallb]; use_outcomes;
    repeat match goal with H : is_KeyError _ = _ |- _ => rewrite ?H; clear H end;
    cbn [negb andb fmap option_fmap option_map mbind option_bind head foldl fst snd].
  all: repeat (first [rewrite decide_True by done | rewrite decide_False by done]).
  all: reflexivity.
Qed.
End ClosedForm.

Section DictMore.
Context {V : Type}.
Implicit Types (d : list (str * V)) (k : str) (v : V).

Lemma dict_set_same d k v : dict_get k d = Some v → dict_set k v d = d.
Proof.
  induction d as [|[k' v'] d IH]; simpl; [done|].
  case_decide as Hk; [intros [= ->]; by rewrite Hk | intros H; by rewrite IH].
Qed.

Lemma dict_set_keeps_keys d k k' v :
  is_Some (dict_get k' d) → is_Some (dict_get k' (dict_set k v d)).
Proof.
  destruct (decide (k = k')) as [->|Hne].
  - intros _. rewrite dict_get_set_eq. by eexists.
  - by rewrite dict_get_set_ne.
Qed.
End DictMore.

(** ** The calculator, continued *)

Section CalculatorFacts.
Context `{RT : Runtime}.
Implicit Types (a b : FinancialAnalyzer) (r : ratio).

Lemma calculate_closed a :
  calculate_financial_ratios a
  = (Return tt, apply_stores (kept a) a, verdict_events (verdict a)).
Proof.
  rewrite calculate_run, ratio_blocks_closed. unfold verdict_events.
  by destruct (verdict a).
Qed.

Lemma apply_stores_cons r q stores a :
  apply_stores ((r, q) :: stores) a = apply_stores stores (store r q a).
Proof. reflexivity. Qed.

Lemma quotient_apply_stores r stores a :
  quotient r (apply_stores stores a) = quotient r a.
Proof.
  revert a. induction stores as [|[r' q] stores IH]; intros a; [done|].
  by rewrite apply_stores_cons, IH, quotient_store.
Qed.

(** The closed form reads the analyzer through [quotient] only. *)
Lemma closed_form_ext a b :
  (∀ r, quotient r a = quotient r b) → kept a = kept b ∧ verdict a = verdict b.
Proof.
  intros H.
  unfold kept, verdict, first_error, all_ratios, recorded, reached, lacks_row, abandons.
  cbn [omap list_omap earlier forallb]. rewrite ?filter_cons, ?filter_nil.
  by rewrite !H.
Qed.

Lemma financial_ratios_store r q a :
  financial_ratios (store r q a) = dict_set (ratio_name r) q (financial_ratios a).
Proof. reflexivity. Qed.

Lemma financial_ratios_apply_stores stores a :
  financial_ratios (apply_stores stores a)
  = foldl (λ d rq, dict_set (ratio_name rq.1) rq.2 d) (financial_ratios a) stores.
Proof.
  revert a. induction stores as [|[r q] stores IH]; intros a; [done|].
  by rewrite apply_stores_cons, IH.
Qed.

Lemma store_again r q a :
  dict_get (ratio_name r) (financial_ratios a) = Some q → store r q a = a.
Proof.
  intros H. destruct a. unfold store, set_financial_ratios. simpl in *.
  by rewrite dict_set_same.
Qed.

Lemma apply_stores_absorbed stores a :
  (∀ r q, (r, q) ∈ stores → dict_get (ratio_name r) (financial_ratios a) = Some q) →
  apply_stores stores a = a.
Proof.
  induction stores as [|[r q] stores IH]; intros H; [done|].
  rewrite apply_stores_cons, store_again by (apply H; left).
  apply IH. intros r' q' Hin. apply H. by right.
Qed.

Lemma kept_elem r q a : (r, q) ∈ kept a ↔ recorded r a = Some q.
Proof.
  unfold kept. rewrite list_elem_of_omap. split.
  - intros (r' & _ & H). destruct (recorded r' a) eqn:Hr; by simplify_eq/=.
  - intros H. exists r. split; [destruct r; unfold all_ratios; by repeat constructor|].
    by rewrite H.
Qed.

Lemma abandons_false_skipped r a :
  abandons r a = false →
  match quotient r a with
  | Raise e => if is_KeyError e then None else Some e
  | Return _ => None
  end = None.
Proof. unfold abandons. destruct (quotient r a) as [|e]; [done|]. by destruct (is_KeyError e). Qed.

(** The first ratio to end in an uncaught error decides the verdict. *)
Lemma first_error_reached r a e :
  reached r a = true → quotient r a = Raise e → is_KeyError e = false →
  verdict a = Raise e.
Proof.
  intros Hreach Hq Hk. unfold verdict, first_error, all_ratios.
  rewrite reached_spec in Hreach.
  destruct r; cbn [omap list_omap];
    rewrite ?abandons_false_skipped by (apply Hreach; cbn [earlier]; by repeat constructor);
    by rewrite Hq, Hk.
Qed.

Lemma abandoned_not_recorded r r' a :
  abandons r a = true → r' = r ∨ r ∈ earlier r' → recorded r' a = None.
Proof.
  intros Hab [->|Hin]; unfold recorded.
  - unfold abandons in Hab. destruct (reached r a); [|done].
    by destruct (quotient r a).
  - destruct (reached r' a) eqn:Hreach; [|done].
    rewrite reached_spec in Hreach. specialize (Hreach r Hin). congruence.
Qed.

Lemma first_cell_same (df df' : DataFrame) label :
  same_first_period df df' →
  result_bind (loc (Some df) label) iloc0 = result_bind (loc (Some df') label) iloc0.
Proof.
  intros H. specialize (H label). unfold loc.
  destruct (df !! label) as [[|x row]|], (df' !! label) as [[|x' row']|];
    by simplify_eq/=.
Qed.

Lemma quotient_same_recent a b :
  same_recent (income_stmt a) (income_stmt b) →
  same_recent (balance_sheet a) (balance_sheet b) →
  ∀ r, quotient r a = quotient r b.
Proof.
  intros Hi Hb r. unfold quotient.
  assert (∀ label, result_bind (loc (statement_of r a) label) iloc0
                   = result_bind (loc (statement_of r b) label) iloc0) as H.
  { intros label.
    destruct r; simpl;
      [destruct (income_stmt a), (income_stmt b)
      |destruct (balance_sheet a), (balance_sheet b)..];
      simpl in *; try done; by apply first_cell_same. }
  by rewrite !H.
Qed.
End CalculatorFacts.

Section CalculatorProperties.
Context `{RT : Runtime}.
Implicit Types (a b : FinancialAnalyzer) (r : ratio).

(** X1. Run on an analyzer without ratios, the calculator leaves a
    dictionary that holds exactly the ratios whose guarded computation was
    reached and returned, each under its name with its quotient, in the order
    of the source (Gross Margin, Current Ratio, Debt-to-Equity Ratio),
    whichever of them were skipped. *)
Theorem calculate_on_fresh_analyzer a :
  financial_ratios a = [] →
  financial_ratios (calculate_financial_ratios a).1.2
  = (λ rq, (ratio_name rq.1, rq.2)) <$> kept a.
Proof.
  intros Hfresh. rewrite calculate_closed. cbn [fst snd].
  rewrite financial_ratios_apply_stores, Hfresh.
  unfold kept, all_ratios. cbn [omap list_omap].
  destruct (recorded GrossMargin a), (recorded CurrentRatio a),
    (recorded DebtToEquity a);
    cbn [fmap option_fmap option_map list_fmap foldl fst snd app dict_set
         mbind option_bind];
    repeat (rewrite decide_False by (by intros ?%ratio_name_inj));
    reflexivity.
Qed.

(** X2. Running the calculator a second time on the analyzer it left
    changes nothing: the analyzer stays as it is and the same warning or
    error, if any, is shown again. *)
Theorem calculate_twice a :
  calculate_financial_ratios (calculate_financial_ratios a).1.2
  = calculate_financial_ratios a.
Proof.
  rewrite !calculate_closed. cbn [fst snd].
  destruct (closed_form_ext (apply_stores (kept a) a) a) as [-> ->].
  { intros r. apply quotient_apply_stores. }
  f_equal. f_equal. apply apply_stores_absorbed. intros r q Hin%kept_elem.
  pose proof (ratio_blocks_entry a r) as H.
  rewrite ratio_blocks_closed in H. cbn [fst snd] in H.
  by rewrite H, Hin.
Qed.

(** X3. The calculator reads the most recent period of the income statement
    and of the balance sheet and nothing else: two analyzers whose two
    statements have the same rows with the same first value, and that hold
    the same ratios, end with the same ratios and the same message, whatever
    their ticker, their cash flow and the later periods. *)
Theorem calculate_reads_first_period_only a b :
  same_recent (income_stmt a) (income_stmt b) →
  same_recent (balance_sheet a) (balance_sheet b) →
  financial_ratios a = financial_ratios b →
  financial_ratios (calculate_financial_ratios a).1.2
  = financial_ratios (calculate_financial_ratios b).1.2
  ∧ (calculate_financial_ratios a).2 = (calculate_financial_ratios b).2.
Proof.
  intros Hi Hb Hr. rewrite !calculate_closed. cbn [fst snd].
  destruct (closed_form_ext a b (quotient_same_recent a b Hi Hb)) as [-> ->].
  by rewrite !financial_ratios_apply_stores, Hr.
Qed.

(** X4. What the calculator never does. It returns normally on every
    analyzer; it shows at most one message, a warning or an error; it leaves
    the ticker, the provider handle and the three statements as they were;
    an entry under a name other than the three ratio names keeps its value,
    and no key of the dictionary is removed. *)
Theorem calculate_frame a :
  let run := calculate_financial_ratios a in
  run.1.1 = Return tt
  ∧ (length run.2 ≤ 1)%nat
  ∧ (∀ ev, ev ∈ run.2 → (∃ m, ev = StWarning m) ∨ (∃ m, ev = StError m))
  ∧ (ticker run.1.2 = ticker a ∧ stock run.1.2 = stock a
     ∧ income_stmt run.1.2 = income_stmt a
     ∧ balance_sheet run.1.2 = balance_sheet a
     ∧ cash_flow run.1.2 = cash_flow a)
  ∧ (∀ name, name ∉ ratio_name <$> all_ratios →
       dict_get name (financial_ratios run.1.2) = dict_get name (financial_ratios a))
  ∧ (∀ name, is_Some (dict_get name (financial_ratios a)) →
       is_Some (dict_get name (financial_ratios run.1.2))).
Proof.
  cbv zeta. split; [|split; [|split; [|split; [|split]]]].
  - by rewrite calculate_closed.
  - rewrite calculate_closed. cbn [snd]. unfold verdict_events.
    destruct (verdict a) as [md|e]; [destruct (truthy md)|]; simpl; lia.
  - rewrite calculate_closed. cbn [snd]. unfold verdict_events. intros ev.
    destruct (verdict a) as [md|e]; [destruct (truthy md)|];
      rewrite ?list_elem_of_singleton; [ |by intros ?%elem_of_nil| ];
      intros ->; eauto.
  - apply calculate_keeps.
  - intros name Hname. rewrite calculate_closed. cbn [fst snd].
    rewrite financial_ratios_apply_stores.
    assert (∀ (stores : list (ratio * value)) d,
              (∀ rq, rq ∈ stores → rq.1 ∈ all_ratios) →
              dict_get name (foldl (λ d rq, dict_set (ratio_name rq.1) rq.2 d) d stores)
              = dict_get name d) as Hfold.
    { induction stores as [|[r q] stores IH]; intros d Hin; [done|].
      cbn [foldl fst snd]. rewrite IH by (intros; apply Hin; by right).
      apply dict_get_set_ne. intros <-. apply Hname.
      apply list_elem_of_fmap. exists r. split; [done|]. apply (Hin (r, q)). by left. }
    apply Hfold. intros [r q] _. destruct r; unfold all_ratios; by repeat constructor.
  - intros name Hsome. rewrite calculate_closed. cbn [fst snd].
    rewrite financial_ratios_apply_stores.
    generalize (kept a). intros stores. revert Hsome.
    generalize (financial_ratios a).
    induction stores as [|[r q] stores IH]; intros d Hd; [done|].
    cbn [foldl fst snd]. apply IH. by apply dict_set_keeps_keys.
Qed.

(** X5. A row that is there but has no period makes [.iloc[0]] raise
    [IndexError]; the [except KeyError] clauses do not catch it. When the
    computation of the ratio is reached, the outer handler shows the one
    error with the indexer's message and no warning, and neither this ratio
    nor any later one gets a new entry. *)
Theorem calculate_row_without_period a r df :
  statement_of r a = Some df →
  df !! numerator r = Some []
  ∨ (is_Some (first_period df (numerator r)) ∧ df !! denominator r = Some []) →
  reached r a = true →
  (calculate_financial_ratios a).2
  = [StError (lit "Error calculating financial ratios: "
              ++ lit "single positional indexer is out-of-bounds")]
  ∧ ∀ r', r' = r ∨ r ∈ earlier r' →
          dict_get (ratio_name r') (financial_ratios (calculate_financial_ratios a).1.2)
          = dict_get (ratio_name r') (financial_ratios a).
Proof.
  intros Hdf Hrow Hreach.
  assert (quotient r a
          = Raise (Exn IndexError (lit "single positional indexer is out-of-bounds")))
    as Hq.
  { unfold quotient, loc. rewrite Hdf.
    destruct Hrow as [Hn|[[x Hx] Hd]].
    - by rewrite Hn.
    - apply first_period_Some in Hx as [row Hn]. by rewrite Hn, Hd. }
  split.
  - rewrite calculate_closed. cbn [snd].
    by rewrite (first_error_reached r a _ Hreach Hq).
  - intros r' Hr'. rewrite calculate_self, ratio_blocks_entry.
    rewrite (abandoned_not_recorded r r' a); [done| |done].
    unfold abandons. by rewrite Hq.
Qed.

(** X6. Called before the statements were fetched, when [income_stmt] is
    still [None], the calculator changes nothing and shows the one error of
    the attribute look-up on [None]. *)
Theorem calculate_before_fetch a :
  income_stmt a = None →
  calculate_financial_ratios a
  = (Return tt, a,
     [StError (lit "Error calculating financial ratios: "
               ++ lit "'NoneType' object has no attribute 'loc'")]).
Proof.
  intros Hnone.
  assert (quotient GrossMargin a
          = Raise (Exn AttributeError (lit "'NoneType' object has no attribute 'loc'")))
    as Hq.
  { unfold quotient. cbn [statement_of]. by rewrite Hnone. }
  rewrite calculate_closed, (first_error_reached GrossMargin a _ eq_refl Hq eq_refl).
  unfold kept, all_ratios, recorded, reached. cbn [omap list_omap earlier forallb].
  unfold abandons. rewrite Hq. reflexivity.
Qed.


(** When the first ratio ends in an error the handlers of the blocks do not
    catch, nothing is stored. *)
Lemma first_ratio_error_run a e :
  quotient GrossMargin a = Raise e → is_KeyError e = false →
  calculate_financial_ratios a
  = (Return tt, a,
     [StError (lit "Error calculating financial ratios: " ++ exn_str e)]).
Proof.
  intros Hq Hk.
  rewrite calculate_closed, (first_error_reached GrossMargin a _ eq_refl Hq Hk).
  unfold kept, all_ratios, recorded, reached. cbn [omap list_omap earlier forallb].
  unfold abandons. rewrite Hq, Hk. reflexivity.
Qed.

(** When every ratio ends in a [KeyError], nothing is stored and the three
    names are listed. *)
Lemma all_ratios_missing_run a :
  (∀ r, lacks_row r a = true) →
  calculate_financial_ratios a
  = (Return tt, a,
     [StWarning (lit "Unable to calculate the following ratios due to missing data: Gross Margin, Current Ratio, Debt-to-Equity Ratio")]).
Proof.
  intros Hlacks.
  assert (∀ r, ∃ e, quotient r a = Raise e ∧ is_KeyError e = true) as Hq.
  { intros r. specialize (Hlacks r). unfold lacks_row in Hlacks.
    destruct (quotient r a) as [|e]; [done|]. by exists e. }
  destruct (Hq GrossMargin) as (e1 & H1 & K1), (Hq CurrentRatio) as (e2 & H2 & K2),
    (Hq DebtToEquity) as (e3 & H3 & K3).
  rewrite calculate_closed.
  unfold kept, verdict, first_error, all_ratios, recorded, reached, lacks_row, abandons.
  cbn [omap list_omap earlier forallb]. rewrite ?filter_cons, ?filter_nil.
  rewrite H1, H2, H3, K1, K2, K3. reflexivity.
Qed.

Lemma numerator_missing r a df :
  statement_of r a = Some df → df !! numerator r = None → lacks_row r a = true.
Proof. intros Hdf Hn. unfold lacks_row, quotient, loc. by rewrite Hdf, Hn. Qed.

(** X7. When the first row of every ratio is missing from its statement
    (the provider returned statements without these line items), the
    calculator stores nothing and shows one warning that lists the three
    ratio names in the order of the source. *)
Theorem calculate_all_rows_missing a :
  (∀ r, ∃ df, statement_of r a = Some df ∧ df !! numerator r = None) →
  calculate_financial_ratios a
  = (Return tt, a,
     [StWarning (lit "Unable to calculate the following ratios due to missing data: Gross Margin, Current Ratio, Debt-to-Equity Ratio")]).
Proof.
  intros Hmiss. apply all_ratios_missing_run. intros r.
  destruct (Hmiss r) as (df & Hdf & Hn). by apply (numerator_missing r a df).
Qed.
End CalculatorProperties.

Lemma calculate_on_fresh_analyzer_witness :
  let a := Exact.fetched (lit "AAPL") Exact.income
             (Exact.frame [(lit "Total Current Liabilities", [153982000000 # 1]);
                           (lit "Total Liab", [302083000000 # 1]);
                           (lit "Total Stockholder Equity", [50672000000 # 1])]) in
  financial_ratios (calculate_financial_ratios a).1.2
  = (λ rq, (ratio_name rq.1, rq.2)) <$> kept a.
Proof.
  intros a. apply (calculate_on_fresh_analyzer (RT := Exact.runtime) a). reflexivity.
Defined.

Lemma calculate_reads_first_period_only_witness :
  let a := Exact.fetched (lit "AAPL") Exact.income Exact.balance in
  let b := {| ticker := lit "MSFT"; stock := lit "MSFT";
              income_stmt :=
                Some (Exact.frame [(lit "Gross Profit", [170782000000 # 1]);
                                   (lit "Total Revenue", [394328000000 # 1; 1 # 1; 2 # 1])]);
              balance_sheet := Some Exact.balance;
              cash_flow := None;
              financial_ratios := [] |} in
  financial_ratios (calculate_financial_ratios a).1.2
  = financial_ratios (calculate_financial_ratios b).1.2
  ∧ (calculate_financial_ratios a).2 = (calculate_financial_ratios b).2.
Proof.
  intros a b.
  apply (calculate_reads_first_period_only (RT := Exact.runtime) a b).
  - intros label. unfold Exact.income, Exact.frame. cbn [list_to_map foldr uncurry].
    rewrite !lookup_insert. repeat case_decide; simpl in *; (reflexivity || congruence).
  - intros label. reflexivity.
  - reflexivity.
Defined.

Lemma calculate_row_without_period_witness :
  let a := Exact.fetched (lit "AAPL") Exact.income Cases.no_periods in
  (calculate_financial_ratios a).2
  = [StError (lit "Error calculating financial ratios: "
              ++ lit "single positional indexer is out-of-bounds")]
  ∧ ∀ r', r' = CurrentRatio ∨ CurrentRatio ∈ earlier r' →
          dict_get (ratio_name r') (financial_ratios (calculate_financial_ratios a).1.2)
          = dict_get (ratio_name r') (financial_ratios a).
Proof.
  intros a.
  apply (calculate_row_without_period (RT := Exact.runtime) a CurrentRatio
           Cases.no_periods).
  - reflexivity.
  - left. reflexivity.
  - vm_compute. reflexivity.
Defined.

Lemma calculate_before_fetch_witness :
  calculate_financial_ratios (blank (lit "AAPL"))
  = (Return tt, blank (lit "AAPL"),
     [StError (lit "Error calculating financial ratios: "
               ++ lit "'NoneType' object has no attribute 'loc'")]).
Proof.
  apply (calculate_before_fetch (RT := Exact.runtime) (blank (lit "AAPL"))).
  reflexivity.
Defined.

Lemma calculate_all_rows_missing_witness :
  let a := Exact.fetched (lit "ZZZZ") ∅ ∅ in
  calculate_financial_ratios a
  = (Return tt, a,
     [StWarning (lit "Unable to calculate the following ratios due to missing data: Gross Margin, Current Ratio, Debt-to-Equity Ratio")]).
Proof.
  intros a. apply (calculate_all_rows_missing (RT := Exact.runtime) a).
  intros r. destruct r; eexists; split; reflexivity.
Defined.

(** ** Fetching the statements *)

Section FetchProperties.
Context `{RT : Runtime} (W : World).
Implicit Types (a : FinancialAnalyzer).

(** X8. [fetch_financial_statements] never raises. It returns [True]
    exactly when the three accesses to the provider return, and then the
    analyzer holds the three statements and nothing is shown; otherwise it
    returns [False] having shown exactly one error, as its last event. In
    both cases the ticker, the provider handle and the ratios are as before,
    and each statement is requested at most once, in the order income
    statement, balance sheet, cash flow. *)
Theorem fetch_outcome a :
  let run := fetch_financial_statements W a in
  let all_three f b c :=
    yf_financials W (stock a) = Return f ∧ yf_balance_sheet W (stock a) = Return b
    ∧ yf_cashflow W (stock a) = Return c in
  (∃ ok : bool,
     run.1.1 = Return ok
     ∧ (ok = true ↔ ∃ f b c, all_three f b c)
     ∧ (if ok then errors_shown run.2 = []
        else ∃ e, run.2 = provider_calls run.2
                          ++ [StError (lit "Error fetching financial statements: "
                                       ++ exn_str e)]))
  ∧ (∀ f b c, all_three f b c →
       income_stmt run.1.2 = Some f ∧ balance_sheet run.1.2 = Some b
       ∧ cash_flow run.1.2 = Some c)
  ∧ (ticker run.1.2 = ticker a ∧ stock run.1.2 = stock a
     ∧ financial_ratios run.1.2 = financial_ratios a)
  ∧ provider_calls run.2
    `prefix_of` [YfFinancials (stock a); YfBalanceSheet (stock a); YfCashflow (stock a)].
Proof.
  cbv zeta. rewrite fetch_run. cbv zeta.
  destruct (yf_financials W (stock a)) as [f|e1].
  2:{ split_and!; try done.
      - exists false. split_and!; [done| |by exists e1].
        split; [done|]. by intros (? & ? & ? & ? & _).
      - by intros ? ? ? [? _].
      - by exists [YfBalanceSheet (stock a); YfCashflow (stock a)]. }
  destruct (yf_balance_sheet W (stock a)) as [b|e2].
  2:{ split_and!; try done.
      - exists false. split_and!; [done| |by exists e2].
        split; [done|]. by intros (? & ? & ? & _ & ? & _).
      - by intros ? ? ? (_ & ? & _).
      - by exists [YfCashflow (stock a)]. }
  destruct (yf_cashflow W (stock a)) as [c|e3].
  2:{ split_and!; try done.
      - exists false. split_and!; [done| |by exists e3].
        split; [done|]. by intros (? & ? & ? & _ & _ & ?).
      - by intros ? ? ? (_ & _ & ?). }
  split_and!; try done.
  - exists true. split_and!; [done| |done]. split; [|done]. intros _. by exists f, b, c.
  - by intros ? ? ? ([= <-] & [= <-] & [= <-]).
Qed.

(** X9. A failure of the provider does not undo what was assigned before
    it: when the income statement arrives and the balance sheet raises, the
    analyzer keeps the new income statement, its balance sheet and cash flow
    are as before, the cash flow is never requested, and the error shown
    carries the text of the exception. *)
Theorem fetch_failure_keeps_earlier_statements a f e :
  yf_financials W (stock a) = Return f →
  yf_balance_sheet W (stock a) = Raise e →
  fetch_financial_statements W a
  = (Return false, set_income_stmt f a,
     [YfFinancials (stock a); YfBalanceSheet (stock a);
      StError (lit "Error fetching financial statements: " ++ exn_str e)])
  ∧ income_stmt (fetch_financial_statements W a).1.2 = Some f
  ∧ balance_sheet (fetch_financial_statements W a).1.2 = balance_sheet a
  ∧ cash_flow (fetch_financial_statements W a).1.2 = cash_flow a.
Proof. intros Hf Hb. rewrite fetch_run. cbv zeta. by rewrite Hf, Hb. Qed.
End FetchProperties.

Lemma fetch_failure_keeps_earlier_statements_witness :
  fetch_financial_statements Cases.offline (blank (lit "AAPL"))
  = (Return false, set_income_stmt Exact.income (blank (lit "AAPL")),
     [YfFinancials (lit "AAPL"); YfBalanceSheet (lit "AAPL");
      StError (lit "Error fetching financial statements: " ++ lit "connection refused")])
  ∧ income_stmt (fetch_financial_statements Cases.offline (blank (lit "AAPL"))).1.2
    = Some Exact.income
  ∧ balance_sheet (fetch_financial_statements Cases.offline (blank (lit "AAPL"))).1.2
    = None
  ∧ cash_flow (fetch_financial_statements Cases.offline (blank (lit "AAPL"))).1.2
    = None.
Proof.
  apply (fetch_failure_keeps_earlier_statements (RT := Exact.runtime) Cases.offline
           (blank (lit "AAPL")) Exact.income
           (Exn OtherException (lit "connection refused"))).
  - reflexivity.
  - reflexivity.
Defined.

(** ** The two generators *)

Section GeneratorProperties.
Context `{RT : Runtime} (W : World).
Implicit Types (a b : FinancialAnalyzer).

Lemma completion_cases r :
  (∃ report, result_bind (chat_completions_create W r) first_content_stripped
             = Return report
             ∧ completion W r = (Some report, [ChatCompletionsCreate r]))
  ∨ (∃ e, result_bind (chat_completions_create W r) first_content_stripped = Raise e
          ∧ completion W r
            = (None, [ChatCompletionsCreate r;
                      StError (lit "Error generating financial report: " ++ exn_str e)])).
Proof.
  unfold completion.
  destruct (result_bind (chat_completions_create W r) first_content_stripped) as [s|e];
    [left|right]; by eexists.
Qed.

(** X10. [generate_financial_report] never raises and never changes the
    analyzer. Without ratios it sends no request and shows its own error;
    with ratios, an exception of the completion API, an answer without
    choices and a first choice without content each end in [None] with one
    error that carries the text of the exception. It returns [None] exactly
    when it has shown one error, and a report exactly when it has shown
    none. *)
Theorem generate_financial_report_outcome a :
  let run := generate_financial_report W a in
  let r := ratio_request (ticker a) (financial_ratios a) in
  let failed text :=
    (Return None, a,
     [Enter ratio_grounded; ChatCompletionsCreate r;
      StError (lit "Error generating financial report: " ++ text)]) in
  run.1.2 = a
  ∧ (∃ report, run.1.1 = Return report
               ∧ length (errors_shown run.2) = match report with Some _ => 0 | None => 1 end%nat)
  ∧ (financial_ratios a = [] →
     run = (Return None, a,
            [Enter ratio_grounded;
             StError (lit "No financial ratios available to generate the report.")]))
  ∧ (financial_ratios a ≠ [] →
     (∀ e, chat_completions_create W r = Raise e → run = failed (exn_str e))
     ∧ (chat_completions_create W r = Return [] →
        run = failed (lit "list index out of range"))
     ∧ (∀ more, chat_completions_create W r = Return (None :: more) →
        run = failed (lit "'NoneType' object has no attribute 'strip'"))).
Proof.
  cbv zeta. rewrite generate_financial_report_run.
  destruct (financial_ratios a) as [|entry ratios] eqn:Hratios; cbn [truthy].
  - split_and!; [done| |done|done]. by exists None.
  - split_and!; [done| |done|].
    + destruct (completion_cases (ratio_request (ticker a) (entry :: ratios)))
        as [(report & _ & ->)|(e & _ & ->)]; [by exists (Some report)|by exists None].
    + intros _. unfold completion. split_and!.
      * by intros e ->.
      * by intros ->.
      * by intros more ->.
Qed.

(** X11. [generate_report_with_available_data] never raises and reads
    nothing of the analyzer but its ticker: two analyzers with the same
    ticker get the same result and the same events, whatever statements and
    ratios they hold. An exception of the completion API, an answer without
    choices and a first choice without content each end in [None] with one
    error; it returns [None] exactly when it has shown one error. *)
Theorem generate_report_with_available_data_outcome a :
  let run := generate_report_with_available_data W a tt in
  let r := fallback_request (ticker a) in
  let failed text :=
    (Return None, tt,
     [Enter fallback; ChatCompletionsCreate r;
      StError (lit "Error generating financial report: " ++ text)]) in
  (∀ b, ticker b = ticker a → generate_report_with_available_data W b tt = run)
  ∧ (∃ report, run.1.1 = Return report
               ∧ length (errors_shown run.2) = match report with Some _ => 0 | None => 1 end%nat)
  ∧ (∀ e, chat_completions_create W r = Raise e → run = failed (exn_str e))
  ∧ (chat_completions_create W r = Return [] →
     run = failed (lit "list index out of range"))
  ∧ (∀ more, chat_completions_create W r = Return (None :: more) →
     run = failed (lit "'NoneType' object has no attribute 'strip'")).
Proof.
  cbv zeta. split_and!.
  - intros b Hb. by rewrite !generate_report_with_available_data_run, Hb.
  - rewrite generate_report_with_available_data_run.
    destruct (completion_cases (fallback_request (ticker a)))
      as [(report & _ & ->)|(e & _ & ->)]; [by exists (Some report)|by exists None].
  - intros e He. rewrite generate_report_with_available_data_run.
    unfold completion. by rewrite He.
  - intros He. rewrite generate_report_with_available_data_run.
    unfold completion. by rewrite He.
  - intros more He. rewrite generate_report_with_available_data_run.
    unfold completion. by rewrite He.
Qed.
End GeneratorProperties.

(** ** What a run of [main] shows *)

Section Selections.
Context `{RT : Runtime}.

Lemma shown_nothing {B} (f : event → list B) (l : list event) :
  Forall (λ ev, f ev = []) l → l ≫= f = [].
Proof. induction 1 as [|ev l Hev _ IH]; [done|]. by rewrite bind_cons, Hev, IH. Qed.

Lemma service_calls_app (l k : list event) :
  service_calls (l ++ k) = service_calls l ++ service_calls k.
Proof. unfold service_calls. by rewrite filter_app. Qed.

Lemma service_calls_none (l : list event) :
  Forall (λ ev, is_service_call ev = false) l → service_calls l = [].
Proof.
  unfold service_calls. induction 1 as [|ev l Hev _ IH]; [done|].
  rewrite filter_cons, IH, Hev. by rewrite decide_False.
Qed.
End Selections.

(** Refute membership in a list whose elements are of another shape. *)
Ltac absent H :=
  repeat first
    [ apply elem_of_app in H as [H|H]
    | apply elem_of_cons in H as [H|H]; [discriminate H|]
    | by apply elem_of_nil in H ].

Section PageShown.
Context `{RT : Runtime} (W : World).
Implicit Types (a : FinancialAnalyzer) (ev : event) (trace : list event).

Lemma report_trace_shown a checkbox :
  let trace := report_trace W a checkbox in
  let report := displayable (completion W (request_of a)).1 in
  requests trace = [request_of a]
  ∧ reports_shown trace = match report with Some text => [text] | None => [] end
  ∧ tables_shown trace
    = (if truthy (financial_ratios a) then [financial_ratios a] else [])
  ∧ frames_shown trace
    = (if truthy (financial_ratios a) && checkbox
       then [income_stmt a; balance_sheet a; cash_flow a] else [])
  ∧ links_shown trace
    = (if truthy (financial_ratios a) then
         match report with
         | Some text =>
             match get_text_download_link text (ticker a ++ lit "_financial_report.txt") with
             | Return href => [href]
             | Raise _ => []
             end
         | None => []
         end
       else [])
  ∧ service_calls trace = [ChatCompletionsCreate (request_of a)]
  ∧ (report = None ↔ failure_shown trace).
Proof.
  cbv zeta. unfold report_trace, request_of, failure_shown, completion.
  destruct (truthy (financial_ratios a)).
  - set (r := ratio_request (ticker a) (financial_ratios a)).
    destruct (result_bind (chat_completions_create W r) first_content_stripped)
      as [[|c rest]|e]; destruct checkbox; cbn [fst snd displayable ratio_outcome];
      try destruct (get_text_download_link _ _);
      (split_and!; [reflexivity..|]);
      first [ by (split; [intros _; left; in_trace|done])
            | split; [done|]; intros [H|H]; exfalso; absent H ].
  - set (r := fallback_request (ticker a)).
    destruct (result_bind (chat_completions_create W r) first_content_stripped)
      as [[|c rest]|e]; cbn [fst snd displayable fallback_outcome andb];
      (split_and!; [reflexivity..|]);
      first [ by (split; [intros _; right; in_trace|done])
            | split; [done|]; intros [H|H]; exfalso; absent H ].
Qed.
End PageShown.

Section MainShown.
Context `{RT : Runtime} (W : World).
Implicit Types (a : FinancialAnalyzer) (ev : event) (trace : list event).

Lemma calculate_not_failure a m :
  m = lit "Failed to generate financial report."
  ∨ m = lit "Unable to generate report due to insufficient data." →
  StError m ∉ (calculate_financial_ratios a).2.
Proof.
  intros Hm Hin. rewrite calculate_closed in Hin. cbn [snd] in Hin.
  unfold verdict_events in Hin.
  destruct (verdict a) as [md|e]; [destruct (truthy md)|].
  - apply list_elem_of_singleton in Hin. discriminate.
  - by apply elem_of_nil in Hin.
  - apply list_elem_of_singleton in Hin. injection Hin as Hin.
    destruct Hm as [-> | ->]; vm_compute in Hin; discriminate.
Qed.

Lemma main_shown (text_input : str) (checkbox : bool) :
  let s := upper text_input in
  let trace := (main W text_input checkbox tt).2 in
  match reported W text_input with
  | Some a =>
      let step := report_trace W a checkbox in
      (ticker a = s
       ∧ truthy s = true
       ∧ ∃ f b c,
           yf_ticker W s = Return tt
           ∧ yf_financials W s = Return f ∧ yf_balance_sheet W s = Return b
           ∧ yf_cashflow W s = Return c
           ∧ a = (calculate_financial_ratios
                    (set_cash_flow c (set_balance_sheet b (set_income_stmt f (blank s))))).1.2
           ∧ trace
             = page_head ++ analysis_head s
               ++ [YfFinancials s; YfBalanceSheet s; YfCashflow s]
               ++ (calculate_financial_ratios
                     (set_cash_flow c (set_balance_sheet b (set_income_stmt f (blank s))))).2
               ++ step)
      ∧ requests trace = requests step
      ∧ reports_shown trace = reports_shown step
      ∧ tables_shown trace = tables_shown step
      ∧ frames_shown trace = frames_shown step
      ∧ links_shown trace = links_shown step
      ∧ (∀ fn, entries fn trace = entries fn step)
      ∧ service_calls trace
        = [YfTicker s; YfFinancials s; YfBalanceSheet s; YfCashflow s;
           ChatCompletionsCreate (request_of a)]
      ∧ (failure_shown trace ↔ failure_shown step)
  | None =>
      requests trace = []
      ∧ reports_shown trace = []
      ∧ tables_shown trace = []
      ∧ frames_shown trace = []
      ∧ links_shown trace = []
      ∧ (∀ fn, entries fn trace = 0%nat)
      ∧ service_calls trace
        = (if truthy s then until_failure (provider_attempts W s) else [])
      ∧ (truthy s = true → forallb snd (provider_attempts W s) = false)
      ∧ ¬ failure_shown trace
  end.
Proof.
  cbv zeta. unfold reported. rewrite main_trace.
  unfold page_trace. cbv zeta. unfold analyzed, init, provider_attempts. run_monad.
  destruct (truthy (upper text_input)).
  2:{ split_and!; try done. intros [H|H]; absent H. }
  set (s := upper text_input) in *.
  destruct (yf_ticker W s) as [[]|e0].
  2:{ split_and!; try done. intros [H|H]; absent H. }
  rewrite fetch_run in *. cbv zeta in *. cbn [blank stock] in *.
  destruct (yf_financials W s) as [f|e1].
  2:{ split_and!; try done.
      intros [H|H]; absent H; injection H as H; vm_compute in H; discriminate. }
  destruct (yf_balance_sheet W s) as [b|e2].
  2:{ split_and!; try done.
      intros [H|H]; absent H; injection H as H; vm_compute in H; discriminate. }
  destruct (yf_cashflow W s) as [c|e3].
  2:{ split_and!; try done.
      intros [H|H]; absent H; injection H as H; vm_compute in H; discriminate. }
  cbn [fst snd].
  set (a1 := set_cash_flow c (set_balance_sheet b (set_income_stmt f (blank s)))) in *.
  assert (ticker (calculate_financial_ratios a1).1.2 = s) as Hticker
    by (by rewrite calculate_keeps_ticker).
  pose proof (calculate_events a1) as Hev.
  pose proof (calculate_not_failure a1) as Hnot.
  pose proof (calculate_silent a1) as Hsil.
  assert (∃ a2 out2, calculate_financial_ratios a1 = (Return tt, a2, out2))
    as (a2 & out2 & Hcalc).
  { rewrite calculate_closed. by eexists _, _. }
  rewrite Hcalc in *. cbn [fst snd] in *.
  split_and!.
  - done.
  - done.
  - exists f, b, c. fold a1. rewrite Hcalc. by split_and!.
  - rewrite !requests_app, (silent_requests _ Hsil). reflexivity.
  - unfold reports_shown. rewrite !bind_app, (shown_nothing _ out2); [reflexivity|].
    eapply Forall_impl; [exact Hev|by intros []].
  - unfold tables_shown. rewrite !bind_app, (shown_nothing _ out2); [reflexivity|].
    eapply Forall_impl; [exact Hev|by intros []].
  - unfold frames_shown. rewrite !bind_app, (shown_nothing _ out2); [reflexivity|].
    eapply Forall_impl; [exact Hev|by intros []].
  - unfold links_shown. rewrite !bind_app, (shown_nothing _ out2); [reflexivity|].
    eapply Forall_impl; [exact Hev|by intros []].
  - intros fn. rewrite !entries_app, (silent_entries fn _ Hsil). reflexivity.
  - rewrite !service_calls_app.
    rewrite (service_calls_none out2)
      by (eapply Forall_impl; [exact Hev|by intros []]).
    destruct (report_trace_shown W a2 checkbox) as (_ & _ & _ & _ & _ & -> & _).
    reflexivity.
  - unfold failure_shown. rewrite !elem_of_app.
    split.
    + intros [H|H].
      * left. destruct H as [H|[H|[H|[H|H]]]]; [absent H|absent H|absent H| |done].
        exfalso. apply (Hnot _ (or_introl eq_refl) H).
      * right. destruct H as [H|[H|[H|[H|H]]]]; [absent H|absent H|absent H| |done].
        exfalso. apply (Hnot _ (or_intror eq_refl) H).
    + intros [H|H]; [left|right]; auto 10.
Qed.
End MainShown.

Section Reported.
Context `{RT : Runtime} (W : World).

Lemma reported_Some (text_input : str) f b c :
  truthy (upper text_input) = true →
  yf_ticker W (upper text_input) = Return tt →
  yf_financials W (upper text_input) = Return f →
  yf_balance_sheet W (upper text_input) = Return b →
  yf_cashflow W (upper text_input) = Return c →
  reported W text_input
  = Some (calculate_financial_ratios
            (set_cash_flow c (set_balance_sheet b
               (set_income_stmt f (blank (upper text_input)))))).1.2.
Proof.
  intros Hs Ht Hf Hb Hc. unfold reported, analyzed, init. rewrite Hs. run_monad.
  rewrite Ht, fetch_run. cbv zeta. cbn [blank stock]. by rewrite Hf, Hb, Hc.
Qed.

Lemma displayable_Some (report : option str) (text : str) :
  displayable report = Some text ↔ report = Some text ∧ text ≠ [].
Proof.
  destruct report as [[|c rest]|]; simpl; split; try done.
  - by intros [[= <-] ?].
  - by intros [= <-].
  - by intros [[= <-] _].
  - by intros [? _].
Qed.
End Reported.

(** ** The download link and the stripped answer *)

Section TextFacts.

Lemma encode_char_Some_scalar (c : N) :
  is_Some (Utf8.encode_char c) → Utf8.scalar c.
Proof.
  unfold Utf8.encode_char, Utf8.scalar, Utf8.is_surrogate.
  destruct (c <? 128)%N eqn:H1.
  { apply N.ltb_lt in H1. intros _. split; [lia|].
    apply andb_false_iff. left. apply N.leb_gt. lia. }
  destruct (c <? 2048)%N eqn:H2.
  { apply N.ltb_lt in H2. intros _. split; [lia|].
    apply andb_false_iff. left. apply N.leb_gt. lia. }
  destruct (c <? 65536)%N eqn:H3.
  { apply N.ltb_lt in H3.
    destruct ((55296 <=? c) && (c <=? 57343))%N; [by intros [? ?]|].
    intros _. split; [lia|done]. }
  destruct (c <? 1114112)%N eqn:H4; [|by intros [? ?]].
  apply N.ltb_lt in H4. apply N.ltb_ge in H3. intros _. split; [lia|].
  apply andb_false_iff. right. apply N.leb_gt. lia.
Qed.

Lemma encode_chars_Some_scalar (s : str) :
  is_Some (Utf8.encode_chars s) → Forall Utf8.scalar s.
Proof.
  induction s as [|c s IH]; simpl; [constructor|].
  destruct (Utf8.encode_char c) as [bs|] eqn:Hc; [|by intros [? ?]].
  destruct (Utf8.encode_chars s) as [more|]; [|by intros [? ?]].
  intros _. constructor; [|by apply IH].
  apply encode_char_Some_scalar. by rewrite Hc.
Qed.

Lemma link_returns_iff (text filename : str) :
  returned (get_text_download_link text filename) = true ↔ Forall Utf8.scalar text.
Proof.
  unfold get_text_download_link, Utf8.encode. split.
  - intros H. apply encode_chars_Some_scalar.
    destruct (Utf8.encode_chars text); [by eexists|done].
  - intros H. by destruct (Utf8Facts.encode_chars_scalar text H) as [bs ->].
Qed.

Lemma link_raises (text filename : str) (e : exn) :
  get_text_download_link text filename = Raise e →
  e = Exn UnicodeEncodeError (lit "surrogates not allowed").
Proof.
  unfold get_text_download_link, Utf8.encode.
  destruct (Utf8.encode_chars text); simpl; congruence.
Qed.

(** X12. [get_text_download_link] returns exactly for the texts UTF-8 can
    carry, whatever the file name; for a text with a lone surrogate or a
    code point beyond the Unicode range it raises [UnicodeEncodeError], and
    it raises nothing else. *)
Theorem get_text_download_link_returns_iff_encodable (text filename : str) :
  (returned (get_text_download_link text filename) = true ↔ Forall Utf8.scalar text)
  ∧ (∀ e, get_text_download_link text filename = Raise e →
          exn_class_of e = UnicodeEncodeError
          ∧ ∃ c, c ∈ text ∧ ((1114112 ≤ c)%N ∨ Utf8.is_surrogate c = true)).
Proof.
  split; [apply link_returns_iff|].
  intros e He. split; [by rewrite (link_raises _ _ _ He)|].
  assert (¬ Forall Utf8.scalar text) as Hnot.
  { intros H%(link_returns_iff text filename). rewrite He in H. discriminate H. }
  apply not_Forall_Exists in Hnot; [|intros c; unfold Utf8.scalar; apply _].
  apply Exists_exists in Hnot as (c & Hin & Hc). exists c. split; [done|].
  unfold Utf8.scalar in Hc. destruct (Utf8.is_surrogate c) eqn:Hsur; [by right|].
  left. destruct (decide (1114112 ≤ c)%N); [done|]. exfalso. apply Hc. split; [lia|done].
Qed.

Lemma lstrip_split (s : str) : ∃ l, s = l ++ lstrip s ∧ whitespace l.
Proof.
  induction s as [|c s (l & Hs & Hl)]; simpl.
  - exists []. split; [done|constructor].
  - destruct (isspace c) eqn:Hc.
    + exists (c :: l). split; [by rewrite Hs at 1|by constructor].
    + exists []. split; [done|constructor].
Qed.

Lemma strip_split (s : str) :
  ∃ l m, s = l ++ strip s ++ m ∧ whitespace l ∧ whitespace m.
Proof.
  destruct (lstrip_split s) as (l & Hs & Hl).
  destruct (lstrip_split (reverse (lstrip s))) as (m & Hr & Hm).
  exists l, (reverse m). split_and!; [|done|by apply Forall_reverse].
  unfold strip, rstrip. rewrite <- reverse_app, <- Hr, reverse_involutive. done.
Qed.
End TextFacts.

(** ** Properties of whole runs of [main] *)

Section MainProperties.
Context `{RT : Runtime} (W : World).
Implicit Types (a : FinancialAnalyzer) (trace : list event).

(** X13. When the provider handle is made and the fetch fails, [main]
    returns normally: after the error of the fetch it shows the one error
    that asks to check the ticker, and that is all. The calculator is not run
    (no warning), no generator is entered, no request is sent, and neither a
    table nor a report is shown. *)
Theorem main_after_failed_fetch (text_input : str) (checkbox : bool) :
  truthy (upper text_input) = true →
  yf_ticker W (upper text_input) = Return tt →
  (fetch_financial_statements W (blank (upper text_input))).1.1 = Return false →
  let s := upper text_input in
  let trace := (main W text_input checkbox tt).2 in
  main W text_input checkbox tt
  = (Return tt, tt,
     page_head ++ analysis_head s ++ (fetch_financial_statements W (blank s)).2
     ++ [StError (lit "Failed to fetch data. Please check the ticker symbol and try again.")])
  ∧ (∃ e, errors_shown trace
          = [lit "Error fetching financial statements: " ++ exn_str e;
             lit "Failed to fetch data. Please check the ticker symbol and try again."])
  ∧ (∀ m, StWarning m ∉ trace)
  ∧ requests trace = [] ∧ reports_shown trace = [] ∧ tables_shown trace = []
  ∧ ∀ fn, entries fn trace = 0%nat.
Proof.
  intros Hs Ht Hf. cbv zeta. rewrite main_run. cbv zeta. rewrite Hs, Ht.
  revert Hf. rewrite fetch_run. cbv zeta. cbn [blank stock].
  destruct (yf_financials W (upper text_input)) as [f|e1].
  2:{ intros _. split_and!; try reflexivity; [by exists e1|intros m H; absent H]. }
  destruct (yf_balance_sheet W (upper text_input)) as [b|e2].
  2:{ intros _. split_and!; try reflexivity; [by exists e2|intros m H; absent H]. }
  destruct (yf_cashflow W (upper text_input)) as [c|e3].
  2:{ intros _. split_and!; try reflexivity; [by exists e3|intros m H; absent H]. }
  intros [=].
Qed.

(** X14. The provider handle is made outside every [try] (line 152): when
    its construction raises, the exception leaves [main]. The run has then
    shown the sidebar line and the spinner and nothing else: no error
    message, no statement is requested and no request is sent. *)
Theorem main_propagates_constructor_failure
    (text_input : str) (checkbox : bool) (e : exn) :
  truthy (upper text_input) = true →
  yf_ticker W (upper text_input) = Raise e →
  let s := upper text_input in
  let trace := (main W text_input checkbox tt).2 in
  main W text_input checkbox tt = (Raise e, tt, page_head ++ analysis_head s)
  ∧ errors_shown trace = []
  ∧ service_calls trace = [YfTicker s]
  ∧ reports_shown trace = []
  ∧ ∀ fn, entries fn trace = 0%nat.
Proof.
  intros Hs Ht. cbv zeta. rewrite main_run. cbv zeta. rewrite Hs, Ht.
  by split_and!.
Qed.

(** X16. No call is repeated and none follows a failure. The calls of a
    run to the provider and to the completion API are, in this order: the
    handle, the income statement, the balance sheet and the cash flow, each
    made once, up to and including the first that fails (none at all for an
    empty ticker), and then the requests to the completion API. Exactly one
    request is sent when the ticker is not empty and all four provider calls
    returned, and none otherwise; at most one report is shown per request
    and at most one link per report. *)
Theorem main_calls_each_service_once (text_input : str) (checkbox : bool) :
  let s := upper text_input in
  let trace := (main W text_input checkbox tt).2 in
  let attempts := if truthy s then provider_attempts W s else [] in
  service_calls trace
  = until_failure attempts ++ (ChatCompletionsCreate <$> requests trace)
  ∧ length (requests trace)
    = (if truthy s && forallb snd (provider_attempts W s) then 1 else 0)%nat
  ∧ (length (reports_shown trace) ≤ length (requests trace))%nat
  ∧ (length (links_shown trace) ≤ length (reports_shown trace))%nat.
Proof.
  cbv zeta.
  pose proof (main_shown W text_input checkbox) as H. cbv zeta in H.
  destruct (reported W text_input) as [a|].
  - destruct H as ((_ & Hs & f & b & c & Ht & Hf & Hb & Hc & _)
                   & -> & -> & _ & _ & -> & _ & -> & _).
    destruct (report_trace_shown W a checkbox) as (-> & -> & _ & _ & -> & _).
    rewrite Hs. unfold provider_attempts. rewrite Ht, Hf, Hb, Hc.
    split_and!; [done|done| |].
    + destruct (displayable _); simpl; lia.
    + destruct (displayable _), (truthy (financial_ratios a)); try (simpl; lia).
      destruct (get_text_download_link _ _); simpl; lia.
  - destruct H as (-> & -> & _ & _ & -> & _ & -> & Hnot & _).
    destruct (truthy (upper text_input)).
    + rewrite (Hnot eq_refl). split_and!; [by rewrite app_nil_r|done|done|done].
    + by split_and!.
Qed.

(** X17. The fallback page shows the report only: when the fallback
    generator is entered, the request is the one built from the ticker
    alone, and the run shows no raw statement, no ratio table and no
    download link, whether or not the box is ticked. *)
Theorem fallback_page_shows_the_report_only (text_input : str) (checkbox : bool) :
  let trace := (main W text_input checkbox tt).2 in
  entries fallback trace = 1%nat →
  requests trace = [fallback_request (upper text_input)]
  ∧ frames_shown trace = [] ∧ tables_shown trace = [] ∧ links_shown trace = []
  ∧ entries ratio_grounded trace = 0%nat.
Proof.
  cbv zeta. intros Hent.
  pose proof (main_shown W text_input checkbox) as H. cbv zeta in H.
  destruct (reported W text_input) as [a|].
  2:{ destruct H as (_ & _ & _ & _ & _ & Hnone & _). by rewrite Hnone in Hent. }
  destruct H as ((Hticker & _) & -> & _ & -> & -> & -> & Hall & _).
  rewrite Hall in *.
  destruct (report_trace_shown W a checkbox) as (-> & _ & -> & -> & -> & _).
  pose proof (report_trace_counts W a checkbox) as Hcount. cbv zeta in Hcount.
  unfold request_of.
  destruct (truthy (financial_ratios a)).
  - destruct Hcount as (_ & Hzero & _). by rewrite Hzero in Hent.
  - destruct Hcount as (_ & Hzero & _). by rewrite Hticker.
Qed.

(** X18. The raw statements follow the checkbox: they are shown exactly
    when the box is ticked and the ratio table is shown, and what is shown
    is the three statements as the provider returned them, in the order
    income statement, balance sheet, cash flow. *)
Theorem raw_statements_follow_the_checkbox (text_input : str) (checkbox : bool) :
  let s := upper text_input in
  let trace := (main W text_input checkbox tt).2 in
  (frames_shown trace ≠ [] ↔ checkbox = true ∧ tables_shown trace ≠ [])
  ∧ (frames_shown trace = []
     ∨ ∃ f b c,
         yf_financials W s = Return f ∧ yf_balance_sheet W s = Return b
         ∧ yf_cashflow W s = Return c
         ∧ frames_shown trace = [Some f; Some b; Some c]).
Proof.
  cbv zeta.
  pose proof (main_shown W text_input checkbox) as H. cbv zeta in H.
  destruct (reported W text_input) as [a|].
  2:{ destruct H as (_ & _ & -> & -> & _). split; [|by left]. split; [done|by intros [_ ?]]. }
  destruct H as ((_ & _ & f & b & c & _ & Hf & Hb & Hc & Ha & _) & _ & _ & -> & -> & _).
  destruct (report_trace_shown W a checkbox) as (_ & _ & -> & -> & _).
  assert (income_stmt a = Some f ∧ balance_sheet a = Some b ∧ cash_flow a = Some c)
    as (-> & -> & ->).
  { pose proof (calculate_keeps
                  (set_cash_flow c (set_balance_sheet b
                     (set_income_stmt f (blank (upper text_input))))))
      as (_ & _ & Hi & Hbs & Hcf).
    cbv zeta in *. rewrite <- Ha in *. by rewrite Hi, Hbs, Hcf. }
  destruct (truthy (financial_ratios a)), checkbox; cbn [andb].
  - split; [by split|]. right. by exists f, b, c.
  - split; [|by left]. split; [done|by intros [? _]].
  - split; [|by left]. split; [done|by intros [_ ?]].
  - split; [|by left]. split; [done|by intros [_ ?]].
Qed.

(** X19. The ratio table and the prompt carry the same ratios: a run shows
    no table and sends at most the request built from the ticker alone, or
    it shows one table, which is not empty, and sends the one request built
    from the ticker and the rows of this table. *)
Theorem ratio_table_is_what_the_prompt_carries (text_input : str) (checkbox : bool) :
  let s := upper text_input in
  let trace := (main W text_input checkbox tt).2 in
  (tables_shown trace = []
   ∧ (requests trace = [] ∨ requests trace = [fallback_request s]))
  ∨ (∃ rows, rows ≠ [] ∧ tables_shown trace = [rows]
             ∧ requests trace = [ratio_request s rows]).
Proof.
  cbv zeta.
  pose proof (main_shown W text_input checkbox) as H. cbv zeta in H.
  destruct (reported W text_input) as [a|].
  2:{ destruct H as (-> & _ & -> & _). left. split; [done|by left]. }
  destruct H as ((Hticker & _) & -> & _ & -> & _).
  destruct (report_trace_shown W a checkbox) as (-> & _ & -> & _).
  unfold request_of. rewrite Hticker.
  destruct (financial_ratios a) as [|entry rows] eqn:Hrows; cbn [truthy].
  - left. split; [done|by right].
  - right. by exists (entry :: rows).
Qed.


(** X21. A displayed report is the answer without its margins: every
    report shown is not empty and is the content of the first choice of the
    answer to the request of this run, with nothing but white space removed
    before it and after it. *)
Theorem displayed_report_is_the_answer_without_margins
    (text_input : str) (checkbox : bool) (report : str) :
  let trace := (main W text_input checkbox tt).2 in
  report ∈ reports_shown trace →
  report ≠ []
  ∧ ∃ r content more before after,
      requests trace = [r]
      ∧ chat_completions_create W r = Return (Some content :: more)
      ∧ content = before ++ report ++ after
      ∧ whitespace before ∧ whitespace after.
Proof.
  cbv zeta. intros Hin.
  pose proof (main_shown W text_input checkbox) as H. cbv zeta in H.
  destruct (reported W text_input) as [a|].
  2:{ destruct H as (_ & Hnone & _). rewrite Hnone in Hin. by apply elem_of_nil in Hin. }
  destruct H as (_ & -> & Hrep & _).
  destruct (report_trace_shown W a checkbox) as (-> & Srep & _).
  rewrite Hrep, Srep in Hin.
  destruct (displayable (completion W (request_of a)).1) as [text|] eqn:Hd;
    [|by apply elem_of_nil in Hin].
  apply list_elem_of_singleton in Hin as ->.
  apply displayable_Some in Hd as [Hd Hne]. split; [done|].
  apply completion_report in Hd as (content & more & Hanswer & ->).
  destruct (strip_split content) as (before & after & Hsplit & Hb & Ha).
  by exists (request_of a), content, more, before, after.
Qed.
End MainProperties.

Section FallbackRuns.
Context `{RT : Runtime} (W : World).

(** A run whose calculator stores nothing goes on in the fallback mode. *)
Lemma run_without_ratios (text_input : str) (checkbox : bool) f b c out :
  let s := upper text_input in
  let a1 := set_cash_flow c (set_balance_sheet b (set_income_stmt f (blank s))) in
  let trace := (main W text_input checkbox tt).2 in
  truthy s = true →
  yf_ticker W s = Return tt →
  yf_financials W s = Return f → yf_balance_sheet W s = Return b →
  yf_cashflow W s = Return c →
  calculate_financial_ratios a1 = (Return tt, a1, out) →
  (∀ ev, ev ∈ out → ev ∈ trace)
  ∧ StError (lit "Financial ratios could not be calculated.") ∈ trace
  ∧ requests trace = [fallback_request s]
  ∧ tables_shown trace = []
  ∧ entries fallback trace = 1%nat
  ∧ entries ratio_grounded trace = 0%nat.
Proof.
  cbv zeta. intros Hs Ht Hf Hb Hc Hcalc.
  pose proof (main_shown W text_input checkbox) as H. cbv zeta in H.
  rewrite (reported_Some W text_input f b c Hs Ht Hf Hb Hc), Hcalc in H.
  cbn [fst snd] in H.
  destruct H as ((_ & _ & f' & b' & c' & _ & Hf' & Hb' & Hc' & _ & Htrace) & Hreq & _
                 & Htab & _ & _ & Hent & _).
  assert (f' = f) as -> by congruence. assert (b' = b) as -> by congruence.
  assert (c' = c) as -> by congruence. rewrite Hcalc in Htrace. cbn [snd] in Htrace.
  destruct (report_trace_shown W
              (set_cash_flow c (set_balance_sheet b
                 (set_income_stmt f (blank (upper text_input))))) checkbox)
    as (Sreq & _ & Stab & _).
  pose proof (report_trace_counts W
              (set_cash_flow c (set_balance_sheet b
                 (set_income_stmt f (blank (upper text_input))))) checkbox) as Hcount.
  cbv zeta in Hcount. cbn [truthy financial_ratios set_cash_flow set_balance_sheet
    set_income_stmt blank] in Hcount, Stab.
  split_and!.
  - intros ev Hin. rewrite Htrace. in_trace.
  - rewrite Htrace. unfold report_trace.
    cbn [truthy financial_ratios set_cash_flow set_balance_sheet set_income_stmt blank].
    unfold fallback_announced. in_trace.
  - by rewrite Hreq, Sreq.
  - by rewrite Htab, Stab.
  - rewrite Hent. apply Hcount.
  - rewrite Hent. apply Hcount.
Qed.

(** X22. Statements without the line items of the ratios lead to the
    fallback report: when the provider returns the handle and the three
    statements and the first row of every ratio is missing, the run shows
    the warning that names the three ratios and the error that no ratio
    could be calculated, shows no table, enters the fallback generator and
    sends the one request built from the ticker alone. *)
Theorem missing_line_items_lead_to_fallback
    (text_input : str) (checkbox : bool) f b c :
  let s := upper text_input in
  let trace := (main W text_input checkbox tt).2 in
  truthy s = true →
  yf_ticker W s = Return tt →
  yf_financials W s = Return f → yf_balance_sheet W s = Return b →
  yf_cashflow W s = Return c →
  f !! lit "Gross Profit" = None →
  b !! lit "Total Current Assets" = None →
  b !! lit "Total Liab" = None →
  StWarning (lit "Unable to calculate the following ratios due to missing data: Gross Margin, Current Ratio, Debt-to-Equity Ratio")
  ∈ trace
  ∧ StError (lit "Financial ratios could not be calculated.") ∈ trace
  ∧ requests trace = [fallback_request s]
  ∧ tables_shown trace = []
  ∧ entries fallback trace = 1%nat.
Proof.
  cbv zeta. intros Hs Ht Hf Hb Hc Hgp Hca Htl.
  set (a1 := set_cash_flow c (set_balance_sheet b
               (set_income_stmt f (blank (upper text_input))))).
  assert (∀ r, lacks_row r a1 = true) as Hmiss.
  { intros [].
    - by apply (numerator_missing GrossMargin a1 f).
    - by apply (numerator_missing CurrentRatio a1 b).
    - by apply (numerator_missing DebtToEquity a1 b). }
  destruct (run_without_ratios text_input checkbox f b c _ Hs Ht Hf Hb Hc
              (all_ratios_missing_run a1 Hmiss))
    as (Hout & Herr & Hreq & Htab & Hent & _).
  split_and!; try done. apply Hout. by left.
Qed.

(** X23. An error in the first ratio costs the others. When the provider
    returns the handle and the three statements and the division of the gross profit by the
    total revenue raises (a revenue of zero, under scalar division), the run
    shows the error of the calculator, computes none of the balance-sheet
    ratios however complete the balance sheet is, shows no table and goes on
    in the fallback mode with the request built from the ticker alone. *)
Theorem first_ratio_error_leads_to_fallback
    (text_input : str) (checkbox : bool) f b c gp rev row row' e :
  let s := upper text_input in
  let trace := (main W text_input checkbox tt).2 in
  truthy s = true →
  yf_ticker W s = Return tt →
  yf_financials W s = Return f → yf_balance_sheet W s = Return b →
  yf_cashflow W s = Return c →
  f !! lit "Gross Profit" = Some (gp :: row) →
  f !! lit "Total Revenue" = Some (rev :: row') →
  truediv gp rev = Raise e → is_KeyError e = false →
  StError (lit "Error calculating financial ratios: " ++ exn_str e) ∈ trace
  ∧ StError (lit "Financial ratios could not be calculated.") ∈ trace
  ∧ requests trace = [fallback_request s]
  ∧ tables_shown trace = []
  ∧ entries fallback trace = 1%nat.
Proof.
  cbv zeta. intros Hs Ht Hf Hb Hc Hgp Hrev Hdiv Hkey.
  assert (quotient GrossMargin
            (set_cash_flow c (set_balance_sheet b
               (set_income_stmt f (blank (upper text_input))))) = Raise e) as Hq.
  { unfold quotient, loc. cbn [statement_of income_stmt set_cash_flow set_balance_sheet
      set_income_stmt numerator denominator]. by rewrite Hgp, Hrev. }
  destruct (run_without_ratios text_input checkbox f b c _ Hs Ht Hf Hb Hc
              (first_ratio_error_run _ e Hq Hkey))
    as (Hout & Herr & Hreq & Htab & Hent & _).
  split_and!; try done. apply Hout. by left.
Qed.
End FallbackRuns.

(** ** The further properties at concrete runs *)

Lemma main_after_failed_fetch_witness :
  let trace := (main Cases.offline (lit "aapl") true tt).2 in
  main Cases.offline (lit "aapl") true tt
  = (Return tt, tt,
     page_head ++ analysis_head (lit "AAPL")
     ++ (fetch_financial_statements Cases.offline (blank (lit "AAPL"))).2
     ++ [StError (lit "Failed to fetch data. Please check the ticker symbol and try again.")])
  ∧ (∃ e, errors_shown trace
          = [lit "Error fetching financial statements: " ++ exn_str e;
             lit "Failed to fetch data. Please check the ticker symbol and try again."])
  ∧ (∀ m, StWarning m ∉ trace)
  ∧ requests trace = [] ∧ reports_shown trace = [] ∧ tables_shown trace = []
  ∧ ∀ fn, entries fn trace = 0%nat.
Proof.
  intros trace.
  apply (main_after_failed_fetch (RT := Exact.runtime) Cases.offline (lit "aapl") true).
  - reflexivity.
  - reflexivity.
  - reflexivity.
Defined.

Lemma main_propagates_constructor_failure_witness :
  let trace := (main Cases.no_handle (lit "aapl") true tt).2 in
  main Cases.no_handle (lit "aapl") true tt
  = (Raise (Exn OtherException (lit "no handle")), tt,
     page_head ++ analysis_head (lit "AAPL"))
  ∧ errors_shown trace = []
  ∧ service_calls trace = [YfTicker (lit "AAPL")]
  ∧ reports_shown trace = []
  ∧ ∀ fn, entries fn trace = 0%nat.
Proof.
  intros trace.
  apply (main_propagates_constructor_failure (RT := Exact.runtime) Cases.no_handle
           (lit "aapl") true (Exn OtherException (lit "no handle"))).
  - reflexivity.
  - reflexivity.
Defined.

Lemma fallback_page_shows_the_report_only_witness :
  let trace := (main Cases.unknown (lit "zzzz") true tt).2 in
  requests trace = [fallback_request (lit "ZZZZ")]
  ∧ frames_shown trace = [] ∧ tables_shown trace = [] ∧ links_shown trace = []
  ∧ entries ratio_grounded trace = 0%nat.
Proof.
  intros trace.
  apply (fallback_page_shows_the_report_only (RT := Exact.runtime) Cases.unknown
           (lit "zzzz") true).
  vm_compute. reflexivity.
Defined.


Lemma displayed_report_is_the_answer_without_margins_witness :
  let trace := (main Exact.world (lit "aapl") false tt).2 in
  let report := lit "The company is in good shape." in
  report ≠ []
  ∧ ∃ r content more before after,
      requests trace = [r]
      ∧ chat_completions_create Exact.world r = Return (Some content :: more)
      ∧ content = before ++ report ++ after
      ∧ whitespace before ∧ whitespace after.
Proof.
  intros trace report.
  apply (displayed_report_is_the_answer_without_margins (RT := Exact.runtime)
           Exact.world (lit "aapl") false report).
  vm_compute. apply list_elem_of_here.
Defined.

Lemma missing_line_items_lead_to_fallback_witness :
  let trace := (main Cases.unknown (lit "zzzz") false tt).2 in
  StWarning (lit "Unable to calculate the following ratios due to missing data: Gross Margin, Current Ratio, Debt-to-Equity Ratio")
  ∈ trace
  ∧ StError (lit "Financial ratios could not be calculated.") ∈ trace
  ∧ requests trace = [fallback_request (lit "ZZZZ")]
  ∧ tables_shown trace = []
  ∧ entries fallback trace = 1%nat.
Proof.
  intros trace.
  apply (missing_line_items_lead_to_fallback (RT := Exact.runtime) Cases.unknown
           (lit "zzzz") false ∅ ∅ ∅); reflexivity.
Defined.

Lemma first_ratio_error_leads_to_fallback_witness :
  let trace := (main Cases.no_revenue (lit "aapl") false tt).2 in
  StError (lit "Error calculating financial ratios: " ++ lit "division by zero") ∈ trace
  ∧ StError (lit "Financial ratios could not be calculated.") ∈ trace
  ∧ requests trace = [fallback_request (lit "AAPL")]
  ∧ tables_shown trace = []
  ∧ entries fallback trace = 1%nat.
Proof.
  intros trace.
  apply (first_ratio_error_leads_to_fallback (RT := Exact.runtime) Cases.no_revenue
           (lit "aapl") false
           (Exact.frame [(lit "Gross Profit", [1 # 1]); (lit "Total Revenue", [0 # 1])])
           Exact.balance ∅ (1 # 1) (0 # 1) [] []
           (Exn ZeroDivisionError (lit "division by zero"))); reflexivity.
Defined.
